(** * pyrus: the Option and Result containers of [rutils/option.py]

    A shallow embedding of the two container families of the repository
    ([Some] / [Nothing] and [Ok] / [Err], plus the alternative [Err] of
    [oxidize/types_.py]) and the properties of their combinators.

    The development has two layers.

    - A value layer.  [Some] and [Nothing] are frozen dataclasses, so an
      instance is determined by its field; Python values are trees and every
      method is a computation in a state-and-exception monad whose state is
      the caller's world (the thing a caller-supplied function may read and
      change).
    - A store layer (module [Store]).  Instances live in a heap of attribute
      dictionaries and attribute assignment goes through the [__setattr__] a
      frozen dataclass gets; it is the layer on which non-mutation is a
      statement and not a convention.

    Module [Frame] proves that no operation changes an instance of the two
    dataclasses unless a function of the caller writes to it through
    [object.__setattr__], and modules [Refinement] and [Agreement] that a
    call of the store layer runs as the call of the value layer on the
    trees the heap holds. *)

From Stdlib Require Import ZArith Ascii String List Bool Lia.
From stdpp Require Import base numbers strings gmap.

Open Scope string_scope.
Open Scope Z_scope.

(** ** Python values *)

(** The classes of the repository whose instances compare by identity: no
    [__eq__] is defined on them, so [object.__eq__] applies. *)
Inductive cls : Type :=
| Ok            (* rutils/option.py, class Ok *)
| Err           (* rutils/option.py, class Err *)
| oxidize_Err.  (* oxidize/types_.py, class Err *)

Definition cls_eqb (c d : cls) : bool :=
  match c, d with
  | Ok, Ok | Err, Err | oxidize_Err, oxidize_Err => true
  | _, _ => false
  end.

(** A Python value.  [VSome value] is the instance [Some(value)] and
    [VNothing] the instance [Nothing()]; [VObj c id] is the instance of the
    class [c] whose identity (its address) is [id]; [VTuple a b] is the
    pair [(a, b)], the only tuple the module builds. *)
Inductive pyval : Type :=
| VNone
| VBool (b : bool)
| VInt (n : Z)
| VStr (s : string)
| VTuple (a b : pyval)
| VSome (value : pyval)
| VNothing
| VObj (c : cls) (id : nat).

(** [x == y].  [bool] is a subclass of [int], so [True == 1].  On [Some]
    and [Nothing] it is the [__eq__] that [@dataclass(eq=True)] generates:
    [NotImplemented] unless both sides have the very same class, else the
    comparison of the fields.  On [VObj] it is identity. *)
Fixpoint py_eq (x y : pyval) : bool :=
  match x, y with
  | VNone, VNone => true
  | VBool a, VBool b => (Z.b2z a =? Z.b2z b)
  | VBool a, VInt n => (Z.b2z a =? n)
  | VInt m, VBool b => (m =? Z.b2z b)
  | VInt m, VInt n => (m =? n)
  | VStr s, VStr t => String.eqb s t
  | VTuple a b, VTuple c d => py_eq a c && py_eq b d
  | VSome a, VSome b => py_eq a b
  | VNothing, VNothing => true
  | VObj c i, VObj d j => cls_eqb c d && Nat.eqb i j
  | _, _ => false
  end.

(** Truth value testing, as [if] and [not] apply it. *)
Definition truth (x : pyval) : bool :=
  match x with
  | VNone => false
  | VBool b => b
  | VInt n => negb (n =? 0)
  | VStr s => negb (String.eqb s "")
  | VTuple _ _ | VSome _ | VNothing | VObj _ _ => true
  end.

(** [isinstance(t, OptionProtocol)]. *)
Definition isinstance_OptionProtocol (t : pyval) : bool :=
  match t with
  | VSome _ | VNothing => true
  | _ => false
  end.

(** The values of the built-in types: [None], a [bool], an [int], a [str],
    a pair.  None of them has an attribute [is_some]. *)
Definition builtin (t : pyval) : bool :=
  match t with
  | VNone | VBool _ | VInt _ | VStr _ | VTuple _ _ => true
  | VSome _ | VNothing | VObj _ _ => false
  end.

(** [isinstance(t, ResultProtocol)]. *)
Definition isinstance_ResultProtocol (t : pyval) : bool :=
  match t with
  | VObj Ok _ | VObj Err _ => true
  | _ => false
  end.

(** ** Exceptions and the monad of method calls *)

Inductive exn : Type :=
| UnwrapError (msg : string)          (* class UnwrapError(Exception) *)
| AttributeError (name : string)
| TypeError (msg : string)
| FrozenInstanceError (msg : string)  (* dataclasses.FrozenInstanceError *)
| Exception (msg : string).           (* whatever else a caller's function raises *)

Inductive outcome (A : Type) : Type :=
| Returns (a : A)
| Raises (e : exn).
Arguments Returns {A} a.
Arguments Raises {A} e.

(** A call runs in the caller's world [W] and either returns or raises. *)
Definition M (W A : Type) : Type := W -> outcome A * W.

Definition ret {W A} (a : A) : M W A := fun w => (Returns a, w).
Definition raise {W A} (e : exn) : M W A := fun w => (Raises e, w).
Definition bind {W A B} (c : M W A) (k : A -> M W B) : M W B :=
  fun w => match c w with
           | (Returns a, w') => k a w'
           | (Raises e, w') => (Raises e, w')
           end.

Notation "x <- c ;; k" := (bind c (fun x => k))
  (at level 100, c at next level, right associativity).

Definition returns {W A} (c : M W A) (w : W) : Prop :=
  exists a w', c w = (Returns a, w').

(** ** The Option family (value layer)

    A method of [Some] takes the field [value] of its receiver, so
    [Some_map value f] is [Some(value).map(f)]; a method of [Nothing] has
    no field to take.  A [Callable[[T], U]] is a function into the monad, a
    [Callable[[], U]] a computation of it. *)

Section OptionMethods.
Context {W : Type}.

(** [OptionProtocol.unwrap], inherited by both classes: it calls the
    receiver's own [expect]. *)
Definition OptionProtocol_unwrap {A} (expect : string -> M W A) : M W A :=
  expect "called `Option.unwrap()` on a `Nothing` value".

(** *** class Some *)

Definition Some_and_then (value : pyval) (f : pyval -> M W pyval) : M W pyval :=
  f value.

Definition Some_expect (value : pyval) (msg : string) : M W pyval :=
  ret value.

Definition Some_unwrap (value : pyval) : M W pyval :=
  OptionProtocol_unwrap (Some_expect value).

Definition Some_filter (value : pyval) (predicate : pyval -> M W pyval) : M W pyval :=
  b <- predicate value ;;
  ret (if truth b then VSome value else VNothing).

Definition Some_flatten (value : pyval) : M W pyval :=
  t <- Some_unwrap value ;;
  if isinstance_OptionProtocol t then ret t else ret (VSome value).

Definition Some_is_nothing (value : pyval) : M W pyval := ret (VBool false).

Definition Some_is_some (value : pyval) : M W pyval := ret (VBool true).

Definition Some_map (value : pyval) (f : pyval -> M W pyval) : M W pyval :=
  u <- f value ;; ret (VSome u).

Definition Some_map_or (value : pyval) (default : pyval) (f : pyval -> M W pyval)
  : M W pyval :=
  f value.

Definition Some_map_or_else (value : pyval) (default : M W pyval)
    (f : pyval -> M W pyval) : M W pyval :=
  f value.

(** The body of [ok_or] and of [ok_or_else] is the expression statement
    [...]: the call falls off the end of the function and returns [None]. *)
Definition Some_ok_or (value : pyval) (err : pyval) : M W pyval := ret VNone.

Definition Some_ok_or_else (value : pyval) (f : M W pyval) : M W pyval := ret VNone.

Definition Some_unwrap_or (value : pyval) (default : pyval) : M W pyval := ret value.

Definition Some_unwrap_or_else (value : pyval) (f : M W pyval) : M W pyval := ret value.

Definition Some_or_else (value : pyval) (f : M W pyval) : M W pyval := ret (VSome value).

Definition Some_contains (value : pyval) (item : pyval) : M W pyval :=
  ret (VBool (py_eq item value)).

(** *** class Nothing *)

Definition Nothing_and_then (f : pyval -> M W pyval) : M W pyval := ret VNothing.

Definition Nothing_expect (msg : string) : M W pyval := raise (UnwrapError msg).

Definition Nothing_unwrap : M W pyval := OptionProtocol_unwrap Nothing_expect.

Definition Nothing_filter (predicate : pyval -> M W pyval) : M W pyval := ret VNothing.

Definition Nothing_flatten : M W pyval := ret VNothing.

Definition Nothing_is_nothing : M W pyval := ret (VBool true).

Definition Nothing_is_some : M W pyval := ret (VBool false).

Definition Nothing_map (f : pyval -> M W pyval) : M W pyval := ret VNothing.

Definition Nothing_map_or (default : pyval) (f : pyval -> M W pyval) : M W pyval :=
  ret default.

Definition Nothing_map_or_else (default : M W pyval) (f : pyval -> M W pyval)
  : M W pyval :=
  default.

Definition Nothing_ok_or (err : pyval) : M W pyval := ret VNone.

Definition Nothing_ok_or_else (f : M W pyval) : M W pyval := ret VNone.

Definition Nothing_unwrap_or (default : pyval) : M W pyval := ret default.

Definition Nothing_unwrap_or_else (f : M W pyval) : M W pyval := f.

Definition Nothing_or_else (f : M W pyval) : M W pyval := f.

Definition Nothing_zip (other : pyval) : M W pyval := ret VNothing.

Definition Nothing_contains (item : pyval) : M W pyval := ret (VBool false).

(** *** Attribute lookup on an argument

    [Some.zip] reads [other.is_some] and calls [other.unwrap()]: which
    method runs depends on the class of [other], and a value of the model
    that is no Option has neither (a built-in value never has, and an
    instance of [Ok] or [Err] is taken as its constructor built it, with no
    attribute of its own). *)

Definition getattr_is_some (o : pyval) : M W pyval :=
  match o with
  | VSome value => Some_is_some value
  | VNothing => Nothing_is_some
  | _ => raise (AttributeError "is_some")
  end.

Definition call_unwrap (o : pyval) : M W pyval :=
  match o with
  | VSome value => Some_unwrap value
  | VNothing => Nothing_unwrap
  | _ => raise (AttributeError "unwrap")
  end.

Definition Some_zip (value : pyval) (other : pyval) : M W pyval :=
  c <- getattr_is_some other ;;
  if truth c
  then (a <- Some_unwrap value ;; b <- call_unwrap other ;; ret (VSome (VTuple a b)))
  else ret VNothing.

End OptionMethods.

(** ** Method calls on an Option

    [method V W] lists the operations of [OptionProtocol] with their
    arguments, over values [V] and worlds [W]; [call self m] is
    [self.m(...)]: the class of the receiver selects the body. *)

Inductive method (V W : Type) : Type :=
| m_and_then (f : V -> M W V)
| m_expect (msg : string)
| m_filter (predicate : V -> M W V)
| m_flatten
| m_is_nothing
| m_is_some
| m_map (f : V -> M W V)
| m_map_or (default : V) (f : V -> M W V)
| m_map_or_else (default : M W V) (f : V -> M W V)
| m_ok_or (err : V)
| m_ok_or_else (f : M W V)
| m_unwrap
| m_unwrap_or (default : V)
| m_unwrap_or_else (f : M W V)
| m_or_else (f : M W V)
| m_zip (other : V)
| m_contains (item : V).
Arguments m_and_then {V W} f.
Arguments m_expect {V W} msg.
Arguments m_filter {V W} predicate.
Arguments m_flatten {V W}.
Arguments m_is_nothing {V W}.
Arguments m_is_some {V W}.
Arguments m_map {V W} f.
Arguments m_map_or {V W} default f.
Arguments m_map_or_else {V W} default f.
Arguments m_ok_or {V W} err.
Arguments m_ok_or_else {V W} f.
Arguments m_unwrap {V W}.
Arguments m_unwrap_or {V W} default.
Arguments m_unwrap_or_else {V W} f.
Arguments m_or_else {V W} f.
Arguments m_zip {V W} other.
Arguments m_contains {V W} item.

Definition method_name {V W} (m : method V W) : string :=
  match m with
  | m_and_then _ => "and_then"
  | m_expect _ => "expect"
  | m_filter _ => "filter"
  | m_flatten => "flatten"
  | m_is_nothing => "is_nothing"
  | m_is_some => "is_some"
  | m_map _ => "map"
  | m_map_or _ _ => "map_or"
  | m_map_or_else _ _ => "map_or_else"
  | m_ok_or _ => "ok_or"
  | m_ok_or_else _ => "ok_or_else"
  | m_unwrap => "unwrap"
  | m_unwrap_or _ => "unwrap_or"
  | m_unwrap_or_else _ => "unwrap_or_else"
  | m_or_else _ => "or_else"
  | m_zip _ => "zip"
  | m_contains _ => "__contains__"
  end.

Definition call {W} (self : pyval) (m : method pyval W) : M W pyval :=
  match self with
  | VSome value =>
      match m with
      | m_and_then f => Some_and_then value f
      | m_expect msg => Some_expect value msg
      | m_filter predicate => Some_filter value predicate
      | m_flatten => Some_flatten value
      | m_is_nothing => Some_is_nothing value
      | m_is_some => Some_is_some value
      | m_map f => Some_map value f
      | m_map_or default f => Some_map_or value default f
      | m_map_or_else default f => Some_map_or_else value default f
      | m_ok_or err => Some_ok_or value err
      | m_ok_or_else f => Some_ok_or_else value f
      | m_unwrap => Some_unwrap value
      | m_unwrap_or default => Some_unwrap_or value default
      | m_unwrap_or_else f => Some_unwrap_or_else value f
      | m_or_else f => Some_or_else value f
      | m_zip other => Some_zip value other
      | m_contains item => Some_contains value item
      end
  | VNothing =>
      match m with
      | m_and_then f => Nothing_and_then f
      | m_expect msg => Nothing_expect msg
      | m_filter predicate => Nothing_filter predicate
      | m_flatten => Nothing_flatten
      | m_is_nothing => Nothing_is_nothing
      | m_is_some => Nothing_is_some
      | m_map f => Nothing_map f
      | m_map_or default f => Nothing_map_or default f
      | m_map_or_else default f => Nothing_map_or_else default f
      | m_ok_or err => Nothing_ok_or err
      | m_ok_or_else f => Nothing_ok_or_else f
      | m_unwrap => Nothing_unwrap
      | m_unwrap_or default => Nothing_unwrap_or default
      | m_unwrap_or_else f => Nothing_unwrap_or_else f
      | m_or_else f => Nothing_or_else f
      | m_zip other => Nothing_zip other
      | m_contains item => Nothing_contains item
      end
  | _ => raise (AttributeError (method_name m))
  end.

(** ** The Result family

    [Ok] and [Err] are plain classes: no field, no [__init__], no [__eq__].
    A method takes its receiver [self]. *)

Section ResultMethods.
Context {W : Type}.

Definition Ok_is_err (self : pyval) : M W pyval := ret (VBool false).
Definition Ok_is_ok (self : pyval) : M W pyval := ret (VBool true).

Definition Err_is_err (self : pyval) : M W pyval := ret (VBool true).
Definition Err_is_ok (self : pyval) : M W pyval := ret (VBool false).

(** [oxidize/types_.py], class Err. *)
Definition oxidize_Err_is_ok (self : pyval) : M W pyval := ret (VBool false).

(** [self.is_ok], looked up on the class of [self]. *)
Definition getattr_is_ok (self : pyval) : M W pyval :=
  match self with
  | VObj Ok _ => Ok_is_ok self
  | VObj Err _ => Err_is_ok self
  | VObj oxidize_Err _ => oxidize_Err_is_ok self
  | _ => raise (AttributeError "is_ok")
  end.

Definition oxidize_Err_is_err (self : pyval) : M W pyval :=
  b <- getattr_is_ok self ;; ret (VBool (negb (truth b))).

Definition getattr_is_err (self : pyval) : M W pyval :=
  match self with
  | VObj Ok _ => Ok_is_err self
  | VObj Err _ => Err_is_err self
  | VObj oxidize_Err _ => oxidize_Err_is_err self
  | _ => raise (AttributeError "is_err")
  end.

(** The constructor calls [Ok(...)] and [Err(...)].  Neither class nor its bases define
    [__init__] or [__new__], so [object]'s apply: any argument is a
    [TypeError].  [id] is the address the allocator gives the new object. *)
Definition Ok_new (id : nat) (args : list pyval) : M W pyval :=
  match args with
  | [] => ret (VObj Ok id)
  | _ :: _ => raise (TypeError "Ok() takes no arguments")
  end.

Definition Err_new (id : nat) (args : list pyval) : M W pyval :=
  match args with
  | [] => ret (VObj Err id)
  | _ :: _ => raise (TypeError "Err() takes no arguments")
  end.

End ResultMethods.

(** ** Counting the calls of a caller-supplied function

    [counted c] is [c] wrapped in a stub that counts its calls: it runs [c]
    on the caller's world and adds one to a counter kept beside it.
    [instrument m] wraps every function among the arguments of [m]. *)

Definition counted {W A} (c : M W A) : M (W * nat) A :=
  fun wn => let '(r, w') := c (fst wn) in (r, (w', S (snd wn))).

Definition instrument {V W} (m : method V W) : method V (W * nat) :=
  match m with
  | m_and_then f => m_and_then (fun a => counted (f a))
  | m_expect msg => m_expect msg
  | m_filter predicate => m_filter (fun a => counted (predicate a))
  | m_flatten => m_flatten
  | m_is_nothing => m_is_nothing
  | m_is_some => m_is_some
  | m_map f => m_map (fun a => counted (f a))
  | m_map_or default f => m_map_or default (fun a => counted (f a))
  | m_map_or_else default f =>
      m_map_or_else (counted default) (fun a => counted (f a))
  | m_ok_or err => m_ok_or err
  | m_ok_or_else f => m_ok_or_else (counted f)
  | m_unwrap => m_unwrap
  | m_unwrap_or default => m_unwrap_or default
  | m_unwrap_or_else f => m_unwrap_or_else (counted f)
  | m_or_else f => m_or_else (counted f)
  | m_zip other => m_zip other
  | m_contains item => m_contains item
  end.

(** ** Conditions on the arguments of a call *)

(** Every function among the arguments returns whenever it is called. *)
Definition callbacks_return {V W} (m : method V W) : Prop :=
  match m with
  | m_and_then f | m_filter f | m_map f | m_map_or _ f =>
      forall a w, returns (f a) w
  | m_map_or_else default f =>
      (forall w, returns default w) /\ (forall a w, returns (f a) w)
  | m_ok_or_else f | m_unwrap_or_else f | m_or_else f =>
      forall w, returns f w
  | _ => True
  end.

(** Some call of a function among the arguments raises [e]. *)
Definition raised_by_callback {V W} (m : method V W) (e : exn) : Prop :=
  match m with
  | m_and_then f | m_filter f | m_map f | m_map_or _ f =>
      exists a w w', f a w = (Raises e, w')
  | m_map_or_else default f =>
      (exists w w', default w = (Raises e, w'))
      \/ (exists a w w', f a w = (Raises e, w'))
  | m_ok_or_else f | m_unwrap_or_else f | m_or_else f =>
      exists w w', f w = (Raises e, w')
  | _ => False
  end.

(** The one argument whose annotation the body relies on: [zip] takes an
    Option. *)
Definition well_typed {W} (m : method pyval W) : Prop :=
  match m with
  | m_zip other => isinstance_OptionProtocol other = true
  | _ => True
  end.

Definition unwrapping {V W} (m : method V W) : bool :=
  match m with
  | m_expect _ | m_unwrap => true
  | _ => false
  end.

(** No function among the arguments. *)
Definition callback_free {V W} (m : method V W) : bool :=
  match m with
  | m_expect _ | m_flatten | m_is_nothing | m_is_some | m_ok_or _ | m_unwrap
  | m_unwrap_or _ | m_zip _ | m_contains _ => true
  | _ => false
  end.

(** ** Recording the arguments of a caller-supplied function

    [recorded f] is [f] wrapped in a stub that notes the argument of each
    call in a list kept beside the world, latest first; [unrecorded c] is a
    function of no argument, which has nothing to note.  [record_args m]
    wraps every function among the arguments of [m]. *)

Definition recorded {W} (f : pyval -> M W pyval) : pyval -> M (W * list pyval) pyval :=
  fun a wl => let '(r, w') := f a (fst wl) in (r, (w', a :: snd wl)).

Definition unrecorded {W} (c : M W pyval) : M (W * list pyval) pyval :=
  fun wl => let '(r, w') := c (fst wl) in (r, (w', snd wl)).

Definition record_args {W} (m : method pyval W) : method pyval (W * list pyval) :=
  match m with
  | m_and_then f => m_and_then (recorded f)
  | m_expect msg => m_expect msg
  | m_filter predicate => m_filter (recorded predicate)
  | m_flatten => m_flatten
  | m_is_nothing => m_is_nothing
  | m_is_some => m_is_some
  | m_map f => m_map (recorded f)
  | m_map_or default f => m_map_or default (recorded f)
  | m_map_or_else default f => m_map_or_else (unrecorded default) (recorded f)
  | m_ok_or err => m_ok_or err
  | m_ok_or_else f => m_ok_or_else (unrecorded f)
  | m_unwrap => m_unwrap
  | m_unwrap_or default => m_unwrap_or default
  | m_unwrap_or_else f => m_unwrap_or_else (unrecorded f)
  | m_or_else f => m_or_else (unrecorded f)
  | m_zip other => m_zip other
  | m_contains item => m_contains item
  end.

(** ** The [repr] of a string

    The text [{name!r}] in a message: CPython's [unicode_repr].  The string
    is put between single quotes, or between double quotes when it holds a
    single quote and no double quote; the quote in use and the backslash
    are escaped with a backslash; tab, newline and carriage return are
    written [\t], [\n], [\r]; any other character that is not printable
    is written [\xNN] with two lower-case hexadecimal digits.  A string of
    the model is a sequence of code points below 256, of which the
    printable ones are 32 to 126 and 161 to 255 without 173. *)

Definition single_quote : ascii := ascii_of_nat 39.
Definition double_quote : ascii := ascii_of_nat 34.
Definition backslash : ascii := ascii_of_nat 92.

Fixpoint has_char (c : ascii) (s : string) : bool :=
  match s with
  | EmptyString => false
  | String d rest => Ascii.eqb c d || has_char c rest
  end.

Definition repr_quote (s : string) : ascii :=
  if has_char single_quote s && negb (has_char double_quote s)
  then double_quote
  else single_quote.

Definition hex_digit (n : nat) : ascii :=
  match n with
  | 0%nat => "0" | 1%nat => "1" | 2%nat => "2" | 3%nat => "3"
  | 4%nat => "4" | 5%nat => "5" | 6%nat => "6" | 7%nat => "7"
  | 8%nat => "8" | 9%nat => "9" | 10%nat => "a" | 11%nat => "b"
  | 12%nat => "c" | 13%nat => "d" | 14%nat => "e" | _ => "f"
  end%char.

Definition printable (n : nat) : bool :=
  (Nat.leb 32 n && Nat.ltb n 127) || (Nat.leb 161 n && negb (Nat.eqb n 173)).

Definition repr_char (quote c : ascii) : string :=
  let n := nat_of_ascii c in
  if Ascii.eqb c quote || Ascii.eqb c backslash then String backslash (String c "")
  else if Nat.eqb n 9 then String backslash "t"
  else if Nat.eqb n 10 then String backslash "n"
  else if Nat.eqb n 13 then String backslash "r"
  else if printable n then String c ""
  else String backslash
         (String "x" (String (hex_digit (n / 16)) (String (hex_digit (n mod 16)) ""))).

Fixpoint repr_chars (quote : ascii) (s : string) : string :=
  match s with
  | EmptyString => EmptyString
  | String c rest => repr_char quote c ++ repr_chars quote rest
  end.

Definition repr_str (s : string) : string :=
  String (repr_quote s) (repr_chars (repr_quote s) s ++ String (repr_quote s) "").

(** ** The store layer

    Here an instance is an object of the heap: it has an address, a class
    and an attribute dictionary, and a value is a scalar, a pair or a
    reference to an instance.  The methods are the same Python text, read
    with [self] a reference: [self.value] is an attribute lookup, [Some(x)]
    and [Nothing()] allocate, and assignment to an attribute goes through
    [setattr], which on a frozen dataclass raises.  The world of the monad
    is the heap. *)

Module Store.

Inductive val : Type :=
| RNone
| RBool (b : bool)
| RInt (n : Z)
| RStr (s : string)
| RTuple (a b : val)
| Ref (a : nat).

(** The class of an instance: the two frozen dataclasses, or one of the
    plain classes. *)
Inductive klass : Type :=
| cSome
| cNothing
| cPlain (c : cls).

(** [@dataclass(eq=True, frozen=True)] stands on [Some] and [Nothing] and
    on no other class. *)
Definition frozen (k : klass) : bool :=
  match k with
  | cSome | cNothing => true
  | cPlain _ => false
  end.

Record instance : Type := Instance {
  class_of : klass;
  dict : gmap string val
}.

Abbreviation heap := (gmap nat instance).

Definition truth (x : val) : bool :=
  match x with
  | RNone => false
  | RBool b => b
  | RInt n => negb (n =? 0)
  | RStr s => negb (String.eqb s "")
  | RTuple _ _ | Ref _ => true
  end.

(** *** Primitive operations on the heap *)

(** A new object gets an address no live object has. *)
Definition alloc (o : instance) : M heap val :=
  fun h => let a := fresh (dom h) in (Returns (Ref a), <[a := o]> h).

(** [type(x)] for a reference; a scalar has none of the classes above. *)
Definition type_of (x : val) : M heap (option klass) :=
  fun h => match x with
           | Ref a => (Returns (class_of <$> h !! a), h)
           | _ => (Returns None, h)
           end.

(** *** The read-only properties

    [is_nothing] and [is_some] on the two dataclasses, [is_err] and [is_ok]
    on the plain classes: each is a [@property] with a getter and nothing
    else. *)

Definition Some_is_nothing (self : val) : M heap val := ret (RBool false).

Definition Some_is_some (self : val) : M heap val := ret (RBool true).

Definition Nothing_is_nothing (self : val) : M heap val := ret (RBool true).

Definition Nothing_is_some (self : val) : M heap val := ret (RBool false).

Definition Ok_is_err (self : val) : M heap val := ret (RBool false).

Definition Ok_is_ok (self : val) : M heap val := ret (RBool true).

Definition Err_is_err (self : val) : M heap val := ret (RBool true).

Definition Err_is_ok (self : val) : M heap val := ret (RBool false).

(** [oxidize/types_.py], class Err. *)
Definition oxidize_Err_is_ok (self : val) : M heap val := ret (RBool false).

(** [self.is_ok], looked up on the class of [self]. *)
Definition getattr_is_ok (self : val) : M heap val :=
  k <- type_of self ;;
  match k with
  | Some (cPlain Ok) => Ok_is_ok self
  | Some (cPlain Err) => Err_is_ok self
  | Some (cPlain oxidize_Err) => oxidize_Err_is_ok self
  | _ => raise (AttributeError "is_ok")
  end.

Definition oxidize_Err_is_err (self : val) : M heap val :=
  b <- getattr_is_ok self ;; ret (RBool (negb (truth b))).

(** The property a class defines under a name, as its getter. *)
Definition property (k : klass) (name : string) : option (val -> M heap val) :=
  match k with
  | cSome =>
      if String.eqb name "is_nothing" then Some Some_is_nothing
      else if String.eqb name "is_some" then Some Some_is_some
      else None
  | cNothing =>
      if String.eqb name "is_nothing" then Some Nothing_is_nothing
      else if String.eqb name "is_some" then Some Nothing_is_some
      else None
  | cPlain Ok =>
      if String.eqb name "is_err" then Some Ok_is_err
      else if String.eqb name "is_ok" then Some Ok_is_ok
      else None
  | cPlain Err =>
      if String.eqb name "is_err" then Some Err_is_err
      else if String.eqb name "is_ok" then Some Err_is_ok
      else None
  | cPlain oxidize_Err =>
      if String.eqb name "is_ok" then Some oxidize_Err_is_ok
      else if String.eqb name "is_err" then Some oxidize_Err_is_err
      else None
  end.

(** *** Attributes

    The three operations below follow [object.__getattribute__],
    [object.__setattr__] and [object.__delattr__] on an instance: a
    property of the class comes first (its getter runs; it has no setter
    and no deleter, so assignment and deletion raise [AttributeError]),
    then the dictionary of the instance.  They cover the names this module
    uses (the field [value] and the four properties) and the attributes a
    caller stores under a name that no class defines; the bound methods,
    the special attributes ([__class__], [__dict__], ...) and the
    attributes of the built-in values are not modelled. *)

(** The names that do not start with an underscore.  Among them the
    classes of this module define the field and the properties, nothing
    else; the names with an underscore in front include those that
    [object], [ABC] and the dataclass machinery define. *)
Definition public (name : string) : bool :=
  match name with
  | EmptyString => true
  | String c _ => negb (Ascii.eqb c "_")
  end.

(** [x.name]. *)
Definition getattr (x : val) (name : string) : M heap val :=
  fun h => match x with
           | Ref a =>
               match h !! a with
               | Some o =>
                   match property (class_of o) name with
                   | Some getter => getter x h
                   | None =>
                       match dict o !! name with
                       | Some v => (Returns v, h)
                       | None => (Raises (AttributeError name), h)
                       end
                   end
               | None => (Raises (AttributeError name), h)
               end
           | _ => (Raises (AttributeError name), h)
           end.

(** [object.__setattr__(x, name, v)]: the assignment every class inherits,
    and the one the generated [__init__] of a frozen dataclass uses to
    store its fields. *)
Definition object_setattr (x : val) (name : string) (v : val) : M heap val :=
  fun h => match x with
           | Ref a =>
               match h !! a with
               | Some o =>
                   match property (class_of o) name with
                   | Some _ => (Raises (AttributeError name), h)
                   | None =>
                       (Returns RNone,
                        <[a := Instance (class_of o) (<[name := v]> (dict o))]> h)
                   end
               | None => (Raises (AttributeError name), h)
               end
           | _ => (Raises (AttributeError name), h)
           end.

(** [x.name = v].  The [__setattr__] that [@dataclass(frozen=True)]
    generates raises [FrozenInstanceError] for an instance of the class
    itself, whatever the name, with the message
    [f"cannot assign to field {name!r}"]; a plain class inherits
    [object.__setattr__]. *)
Definition setattr (x : val) (name : string) (v : val) : M heap val :=
  fun h => match x with
           | Ref a =>
               match h !! a with
               | Some o =>
                   if frozen (class_of o)
                   then (Raises (FrozenInstanceError
                                   ("cannot assign to field " ++ repr_str name)), h)
                   else object_setattr x name v h
               | None => (Raises (AttributeError name), h)
               end
           | _ => (Raises (AttributeError name), h)
           end.

(** [del x.name], likewise: [f"cannot delete field {name!r}"] on a frozen
    dataclass, [object.__delattr__] on a plain class. *)
Definition delattr (x : val) (name : string) : M heap val :=
  fun h => match x with
           | Ref a =>
               match h !! a with
               | Some o =>
                   if frozen (class_of o)
                   then (Raises (FrozenInstanceError
                                   ("cannot delete field " ++ repr_str name)), h)
                   else match property (class_of o) name with
                        | Some _ => (Raises (AttributeError name), h)
                        | None =>
                            match dict o !! name with
                            | Some _ =>
                                (Returns RNone,
                                 <[a := Instance (class_of o) (delete name (dict o))]> h)
                            | None => (Raises (AttributeError name), h)
                            end
                        end
               | None => (Raises (AttributeError name), h)
               end
           | _ => (Raises (AttributeError name), h)
           end.

(** [isinstance(t, OptionProtocol)]. *)
Definition isinstance_OptionProtocol (t : val) : M heap bool :=
  k <- type_of t ;;
  ret (match k with
       | Some cSome | Some cNothing => true
       | _ => false
       end).

(** [x == y] on the heap.  Scalars and pairs compare as in the value
    layer; two references compare by the [__eq__] of their class: the
    generated one on the dataclasses (same class, then the fields), identity
    on the plain classes.  The comparison of fields follows references, and
    [fuel] bounds how deep; [None] stands for running out of it. *)
Fixpoint py_eq (fuel : nat) (h : heap) (x y : val) {struct fuel} : option bool :=
  match fuel with
  | O => None
  | S fuel' =>
      (fix items (x y : val) {struct x} : option bool :=
         match x, y with
         | RNone, RNone => Some true
         | RBool a, RBool b => Some (Z.b2z a =? Z.b2z b)
         | RBool a, RInt n => Some (Z.b2z a =? n)
         | RInt m, RBool b => Some (m =? Z.b2z b)
         | RInt m, RInt n => Some (m =? n)
         | RStr s, RStr t => Some (String.eqb s t)
         | RTuple a b, RTuple c d =>
             match items a c with
             | Some true => items b d
             | r => r
             end
         | Ref a, Ref b =>
             match h !! a, h !! b with
             | Some o, Some p =>
                 match class_of o, class_of p with
                 | cSome, cSome =>
                     match dict o !! "value", dict p !! "value" with
                     | Some v, Some u => py_eq fuel' h v u
                     | _, _ => Some (Nat.eqb a b)
                     end
                 | cNothing, cNothing => Some true
                 | _, _ => Some (Nat.eqb a b)
                 end
             | _, _ => Some (Nat.eqb a b)
             end
         | _, _ => Some false
         end) x y
  end.

(** The operator [==].  A chain of references through distinct objects is
    no longer than the heap, so the fuel below runs out only on a heap with
    a cycle through the field of a [Some], where Python raises
    [RecursionError]. *)
Definition eq_op (x y : val) : M heap val :=
  fun h => match py_eq (S (size h)) h x y with
           | Some b => (Returns (RBool b), h)
           | None => (Raises (Exception "RecursionError"), h)
           end.

(** *** Constructors *)

(** [Some(value)]: the generated [__init__] stores the one field. *)
Definition Some_new (value : val) : M heap val :=
  alloc (Instance cSome {["value" := value]}).

(** [Nothing()]. *)
Definition Nothing_new : M heap val :=
  alloc (Instance cNothing ∅).

(** [Ok(...)] and [Err(...)]: [object]'s constructor, which takes no
    argument. *)
Definition Ok_new (args : list val) : M heap val :=
  match args with
  | [] => alloc (Instance (cPlain Ok) ∅)
  | _ :: _ => raise (TypeError "Ok() takes no arguments")
  end.

Definition Err_new (args : list val) : M heap val :=
  match args with
  | [] => alloc (Instance (cPlain Err) ∅)
  | _ :: _ => raise (TypeError "Err() takes no arguments")
  end.

(** *** class Some *)

Definition Some_and_then (self : val) (f : val -> M heap val) : M heap val :=
  value <- getattr self "value" ;; f value.

Definition Some_expect (self : val) (msg : string) : M heap val :=
  getattr self "value".

Definition Some_unwrap (self : val) : M heap val :=
  OptionProtocol_unwrap (Some_expect self).

Definition Some_filter (self : val) (predicate : val -> M heap val) : M heap val :=
  value <- getattr self "value" ;;
  b <- predicate value ;;
  if truth b then ret self else Nothing_new.

Definition Some_flatten (self : val) : M heap val :=
  t <- Some_unwrap self ;;
  i <- isinstance_OptionProtocol t ;;
  if i then ret t else ret self.

Definition Some_map (self : val) (f : val -> M heap val) : M heap val :=
  value <- getattr self "value" ;;
  u <- f value ;;
  Some_new u.

Definition Some_map_or (self : val) (default : val) (f : val -> M heap val)
  : M heap val :=
  value <- getattr self "value" ;; f value.

Definition Some_map_or_else (self : val) (default : M heap val)
    (f : val -> M heap val) : M heap val :=
  value <- getattr self "value" ;; f value.

Definition Some_ok_or (self : val) (err : val) : M heap val := ret RNone.

Definition Some_ok_or_else (self : val) (f : M heap val) : M heap val := ret RNone.

Definition Some_unwrap_or (self : val) (default : val) : M heap val :=
  getattr self "value".

Definition Some_unwrap_or_else (self : val) (f : M heap val) : M heap val :=
  getattr self "value".

Definition Some_or_else (self : val) (f : M heap val) : M heap val := ret self.

Definition Some_contains (self : val) (item : val) : M heap val :=
  value <- getattr self "value" ;; eq_op item value.

(** *** class Nothing *)

Definition Nothing_and_then (self : val) (f : val -> M heap val) : M heap val :=
  Nothing_new.

Definition Nothing_expect (self : val) (msg : string) : M heap val :=
  raise (UnwrapError msg).

Definition Nothing_unwrap (self : val) : M heap val :=
  OptionProtocol_unwrap (Nothing_expect self).

Definition Nothing_filter (self : val) (predicate : val -> M heap val) : M heap val :=
  ret self.

Definition Nothing_flatten (self : val) : M heap val := ret self.

Definition Nothing_map (self : val) (f : val -> M heap val) : M heap val :=
  Nothing_new.

Definition Nothing_map_or (self : val) (default : val) (f : val -> M heap val)
  : M heap val :=
  ret default.

Definition Nothing_map_or_else (self : val) (default : M heap val)
    (f : val -> M heap val) : M heap val :=
  default.

Definition Nothing_ok_or (self : val) (err : val) : M heap val := ret RNone.

Definition Nothing_ok_or_else (self : val) (f : M heap val) : M heap val := ret RNone.

Definition Nothing_unwrap_or (self : val) (default : val) : M heap val := ret default.

Definition Nothing_unwrap_or_else (self : val) (f : M heap val) : M heap val := f.

Definition Nothing_or_else (self : val) (f : M heap val) : M heap val := f.

Definition Nothing_zip (self : val) (other : val) : M heap val := Nothing_new.

Definition Nothing_contains (self : val) (item : val) : M heap val := ret (RBool false).

(** *** Attribute lookup on an argument, and [Some.zip]

    [other.is_some] and [other.unwrap()] in the body of [Some.zip], found
    on the class of [other].  An instance of a plain class on which the
    caller has stored an attribute under one of these two names is not
    modelled as an operand of [zip]. *)

Definition getattr_is_some (o : val) : M heap val :=
  k <- type_of o ;;
  match k with
  | Some cSome => Some_is_some o
  | Some cNothing => Nothing_is_some o
  | _ => raise (AttributeError "is_some")
  end.

Definition call_unwrap (o : val) : M heap val :=
  k <- type_of o ;;
  match k with
  | Some cSome => Some_unwrap o
  | Some cNothing => Nothing_unwrap o
  | _ => raise (AttributeError "unwrap")
  end.

Definition Some_zip (self : val) (other : val) : M heap val :=
  c <- getattr_is_some other ;;
  if truth c
  then (a <- Some_unwrap self ;; b <- call_unwrap other ;; Some_new (RTuple a b))
  else Nothing_new.

(** *** Method calls *)

Definition call (self : val) (m : method val heap) : M heap val :=
  k <- type_of self ;;
  match k with
  | Some cSome =>
      match m with
      | m_and_then f => Some_and_then self f
      | m_expect msg => Some_expect self msg
      | m_filter predicate => Some_filter self predicate
      | m_flatten => Some_flatten self
      | m_is_nothing => Some_is_nothing self
      | m_is_some => Some_is_some self
      | m_map f => Some_map self f
      | m_map_or default f => Some_map_or self default f
      | m_map_or_else default f => Some_map_or_else self default f
      | m_ok_or err => Some_ok_or self err
      | m_ok_or_else f => Some_ok_or_else self f
      | m_unwrap => Some_unwrap self
      | m_unwrap_or default => Some_unwrap_or self default
      | m_unwrap_or_else f => Some_unwrap_or_else self f
      | m_or_else f => Some_or_else self f
      | m_zip other => Some_zip self other
      | m_contains item => Some_contains self item
      end
  | Some cNothing =>
      match m with
      | m_and_then f => Nothing_and_then self f
      | m_expect msg => Nothing_expect self msg
      | m_filter predicate => Nothing_filter self predicate
      | m_flatten => Nothing_flatten self
      | m_is_nothing => Nothing_is_nothing self
      | m_is_some => Nothing_is_some self
      | m_map f => Nothing_map self f
      | m_map_or default f => Nothing_map_or self default f
      | m_map_or_else default f => Nothing_map_or_else self default f
      | m_ok_or err => Nothing_ok_or self err
      | m_ok_or_else f => Nothing_ok_or_else self f
      | m_unwrap => Nothing_unwrap self
      | m_unwrap_or default => Nothing_unwrap_or self default
      | m_unwrap_or_else f => Nothing_unwrap_or_else self f
      | m_or_else f => Nothing_or_else self f
      | m_zip other => Nothing_zip self other
      | m_contains item => Nothing_contains self item
      end
  | _ => raise (AttributeError (method_name m))
  end.

(** *** Keeping the frozen instances

    A computation keeps the frozen instances when every instance of a
    frozen dataclass that is in the heap before it is there after it, at
    the same address, with the same class and the same dictionary. *)

Definition keeps_frozen {A} (c : M heap A) : Prop :=
  forall (h : heap) (a : nat) (o : instance),
    h !! a = Some o -> frozen (class_of o) = true ->
    (c h).2 !! a = Some o.

(** The functions among the arguments of a call all keep the frozen
    instances. *)
Definition callbacks_keep_frozen (m : method val heap) : Prop :=
  match m with
  | m_and_then f | m_filter f | m_map f | m_map_or _ f =>
      forall v, keeps_frozen (f v)
  | m_map_or_else default f =>
      keeps_frozen default /\ (forall v, keeps_frozen (f v))
  | m_ok_or_else f | m_unwrap_or_else f | m_or_else f =>
      keeps_frozen f
  | _ => True
  end.

(** *** Reading the heap as trees

    [repr h x t]: read in the heap [h], the value [x] is the tree [t] of
    the value layer.  A reference to a [Some] is read through its field, a
    reference to an instance of a plain class keeps its address as its
    identity. *)

Inductive repr (h : heap) : val -> pyval -> Prop :=
| repr_None : repr h RNone VNone
| repr_Bool (b : bool) : repr h (RBool b) (VBool b)
| repr_Int (n : Z) : repr h (RInt n) (VInt n)
| repr_Str (s : string) : repr h (RStr s) (VStr s)
| repr_Tuple (a b : val) (ta tb : pyval) :
    repr h a ta -> repr h b tb -> repr h (RTuple a b) (VTuple ta tb)
| repr_Some (a : nat) (o : instance) (v : val) (t : pyval) :
    h !! a = Some o -> class_of o = cSome -> dict o !! "value" = Some v ->
    repr h v t -> repr h (Ref a) (VSome t)
| repr_Nothing (a : nat) (o : instance) :
    h !! a = Some o -> class_of o = cNothing -> repr h (Ref a) VNothing
| repr_Obj (a : nat) (o : instance) (c : cls) :
    h !! a = Some o -> class_of o = cPlain c -> repr h (Ref a) (VObj c a).

(** The class a tree shows. *)
Definition klass_of_tree (t : pyval) : option klass :=
  match t with
  | VSome _ => Some cSome
  | VNothing => Some cNothing
  | VObj c _ => Some (cPlain c)
  | _ => None
  end.

(** The number of constructors of a tree, and the longest chain of [Some]
    in it. *)
Fixpoint nodes (t : pyval) : nat :=
  match t with
  | VTuple a b => S (nodes a + nodes b)
  | VSome v => S (nodes v)
  | _ => 1
  end.

Fixpoint height (t : pyval) : nat :=
  match t with
  | VTuple a b => Nat.max (height a) (height b)
  | VSome v => S (height v)
  | _ => 0
  end.

(** [extends h h']: every object of [h] is in [h'] with its class, and
    unchanged when its class is frozen. *)
Definition extends (h h' : heap) : Prop :=
  forall (a : nat) (o : instance),
    h !! a = Some o ->
    exists o', h' !! a = Some o'
               /\ class_of o' = class_of o
               /\ (frozen (class_of o) = true -> o' = o).

(** Two outcomes agree: the same exception, or a value and its tree. *)
Definition out_rel (h : heap) (r : outcome val) (t : outcome pyval) : Prop :=
  match r, t with
  | Returns x, Returns y => repr h x y
  | Raises e, Raises e' => e = e'
  | _, _ => False
  end.

(** [c] only reads: from every heap that extends [h0] it returns [x] and
    leaves the heap as it is. *)
Definition reads {A} (h0 : heap) (c : M heap A) (x : A) : Prop :=
  forall h : heap, extends h0 h -> c h = (Returns x, h).

Section Related.
Context {W : Type} (R : heap -> W -> Prop).

(** [R] relates the heap to the world of the value layer; it has to
    survive the allocation of an instance of a frozen class, which the
    value layer does not see. *)
Definition stable_under_alloc : Prop :=
  forall (h : heap) (w : W) (o : instance),
    R h w -> frozen (class_of o) = true -> R (<[fresh (dom h) := o]> h) w.

(** [c] on the heap and [d] on the world run alike, from every heap that
    extends [h0]. *)
Definition sim_from (h0 : heap) (c : M heap val) (d : M W pyval) : Prop :=
  forall (h : heap) (w : W),
    extends h0 h -> R h w ->
    extends h (c h).2 /\ R (c h).2 (d w).2 /\ out_rel (c h).2 (c h).1 (d w).1.

Definition fun_rel (f : val -> M heap val) (g : pyval -> M W pyval) : Prop :=
  forall (h0 : heap) (v : val) (t : pyval), repr h0 v t -> sim_from h0 (f v) (g t).

Definition thunk_rel (c : M heap val) (d : M W pyval) : Prop :=
  forall h0 : heap, sim_from h0 c d.

(** The same operation, with arguments that correspond. *)
Definition args_rel (h0 : heap) (m : method val heap) (n : method pyval W) : Prop :=
  match m, n with
  | m_and_then f, m_and_then g => fun_rel f g
  | m_expect msg, m_expect msg' => msg = msg'
  | m_filter f, m_filter g => fun_rel f g
  | m_flatten, m_flatten => True
  | m_is_nothing, m_is_nothing => True
  | m_is_some, m_is_some => True
  | m_map f, m_map g => fun_rel f g
  | m_map_or d f, m_map_or d' g => repr h0 d d' /\ fun_rel f g
  | m_map_or_else d f, m_map_or_else d' g => thunk_rel d d' /\ fun_rel f g
  | m_ok_or e, m_ok_or e' => repr h0 e e'
  | m_ok_or_else f, m_ok_or_else g => thunk_rel f g
  | m_unwrap, m_unwrap => True
  | m_unwrap_or d, m_unwrap_or d' => repr h0 d d'
  | m_unwrap_or_else f, m_unwrap_or_else g => thunk_rel f g
  | m_or_else f, m_or_else g => thunk_rel f g
  | m_zip o, m_zip o' => repr h0 o o'
  | m_contains i, m_contains i' => repr h0 i i'
  | _, _ => False
  end.

End Related.

(** *** Sample heaps and functions *)

(** [Some(1)] at address 0. *)
Definition heap_Some_1 : heap :=
  {[ 0%nat := Instance cSome {["value" := RInt 1]} ]}.

(** [Some(Some(5))] at address 0, its payload [Some(5)] at address 1, an
    instance of [Ok] at address 2. *)
Definition heap_nested : heap :=
  <[ 0%nat := Instance cSome {["value" := Ref 1]} ]>
    (<[ 1%nat := Instance cSome {["value" := RInt 5]} ]>
       {[ 2%nat := Instance (cPlain Ok) ∅ ]}).

(** A function that tries to assign to the field of the instance at
    address 0. *)
Definition assign_value (v : val) : M heap val :=
  setattr (Ref 0) "value" (RInt 9).

(** A function that stores into the field of the instance at address 0
    through [object.__setattr__], as
    [lambda v: object.__setattr__(s, "value", 9)] does. *)
Definition overwrite_value (v : val) : M heap val :=
  object_setattr (Ref 0) "value" (RInt 9).

(** A function that records its argument on the object at address 2 and
    returns the argument plus one when it is an integer. *)
Definition record_and_succ (v : val) : M heap val :=
  _ <- setattr (Ref 2) "seen" v ;;
  ret (match v with RInt n => RInt (n + 1) | _ => v end).

End Store.

(** * Properties of the value layer *)

(** ** Equality *)

Lemma cls_eqb_eq (c d : cls) : cls_eqb c d = true <-> c = d.
Proof. destruct c, d; simpl; split; congruence. Qed.

Lemma py_eq_refl (v : pyval) : py_eq v v = true.
Proof.
  induction v; simpl; try reflexivity.
  - apply Z.eqb_refl.
  - apply Z.eqb_refl.
  - apply String.eqb_refl.
  - rewrite IHv1, IHv2. reflexivity.
  - exact IHv.
  - rewrite Nat.eqb_refl. destruct c; reflexivity.
Qed.

Lemma py_eq_sym (x y : pyval) : py_eq x y = py_eq y x.
Proof.
  revert y. induction x; intros [] ; simpl; try reflexivity.
  - apply Z.eqb_sym.
  - apply Z.eqb_sym.
  - apply Z.eqb_sym.
  - apply Z.eqb_sym.
  - apply String.eqb_sym.
  - rewrite IHx1, IHx2. reflexivity.
  - apply IHx.
  - rewrite Nat.eqb_sym. destruct c, c0; reflexivity.
Qed.

(** The generated [__eq__] of the dataclasses: [Some(a) == Some(b)] is
    [a == b], [Nothing() == Nothing()] holds, and the two classes never
    compare equal. *)
Lemma Option_equality_is_structural (a b : pyval) :
  py_eq (VSome a) (VSome b) = py_eq a b
  /\ py_eq VNothing VNothing = true
  /\ py_eq (VSome a) VNothing = false
  /\ py_eq VNothing (VSome a) = false.
Proof. repeat split. Qed.

(** ** The monad *)

Lemma bind_ret_l {W A B} (a : A) (k : A -> M W B) (w : W) :
  bind (ret a) k w = k a w.
Proof. reflexivity. Qed.

Lemma bind_returns {W A B} (c : M W A) (k : A -> M W B) (w w' : W) (a : A) :
  c w = (Returns a, w') -> bind c k w = k a w'.
Proof. intros H. unfold bind. rewrite H. reflexivity. Qed.

Lemma bind_raises {W A B} (c : M W A) (k : A -> M W B) (w w' : W) (e : exn) :
  c w = (Raises e, w') -> bind c k w = (Raises e, w').
Proof. intros H. unfold bind. rewrite H. reflexivity. Qed.

Lemma returns_ret {W A} (a : A) (w : W) : returns (ret a) w.
Proof. exists a, w. reflexivity. Qed.

Lemma returns_bind {W A B} (c : M W A) (k : A -> M W B) (w : W) :
  returns c w -> (forall a w', returns (k a) w') -> returns (bind c k) w.
Proof.
  intros (a & w' & Hc) Hk.
  destruct (Hk a w') as (b & w'' & Hb).
  exists b, w''. rewrite (bind_returns _ _ _ _ _ Hc). exact Hb.
Qed.

Create HintDb returns.
#[local] Hint Resolve returns_ret returns_bind : returns.

(** A computation built from [ret], [bind] and a test returns. *)
Ltac solve_returns :=
  repeat first
    [ apply returns_ret
    | assumption
    | apply returns_bind; [ | intros ]
    | match goal with
      | |- returns (if ?b then _ else _) _ => destruct b
      end ].

(** ** Conversion to a Result *)

(** C1.  What the code does where the claim expects [Ok(v)] and
    [Err(err)]: on both classes [ok_or] and [ok_or_else] return [None],
    whatever the payload, the error value or the function, and never call
    the function.  At [Some(1).ok_or("e")] the result is [None], which is
    no instance of [ResultProtocol]. *)
Theorem ok_or_returns_None {W} (value err : pyval) (f : M W pyval) (w : W) :
  call (VSome value) (m_ok_or err) w = (Returns VNone, w)
  /\ call VNothing (m_ok_or err) w = (Returns VNone, w)
  /\ call (VSome value) (m_ok_or_else f) w = (Returns VNone, w)
  /\ call VNothing (m_ok_or_else f) w = (Returns VNone, w)
  /\ call (VSome (VInt 1)) (m_ok_or (VStr "e")) w = (Returns VNone, w)
  /\ isinstance_ResultProtocol VNone = false.
Proof. repeat split. Qed.

(** ** Unwrapping *)

(** [Some(v).flatten()] is [v] when [v] is an Option and the receiver
    otherwise. *)
Lemma Some_flatten_spec {W} (v : pyval) (wd : W) :
  Some_flatten v wd
  = (Returns (if isinstance_OptionProtocol v then v else VSome v), wd).
Proof.
  unfold Some_flatten, Some_unwrap, OptionProtocol_unwrap, Some_expect.
  rewrite bind_ret_l. destruct (isinstance_OptionProtocol v); reflexivity.
Qed.

(** An operation other than [expect] and [unwrap] raises only what a
    function of the caller raised. *)
Lemma raises_only_from_callback {W} (self : pyval) (m : method pyval W)
    (w w' : W) (e : exn) :
  isinstance_OptionProtocol self = true ->
  unwrapping m = false ->
  well_typed m ->
  call self m w = (Raises e, w') ->
  raised_by_callback m e.
Proof.
  intros Hself Hm Hty.
  destruct self; try discriminate Hself; clear Hself.
  - (* Some *)
    destruct m as [f|msg|predicate| | | |f|default f|default f|err|f| |default|f|f|other|item];
      simpl in *; try discriminate Hm; try discriminate.
    + intros H. exists self, w, w'. exact H.
    + unfold Some_filter, bind. destruct (predicate self w) as [[b | e0] w0] eqn:Hp.
      * discriminate.
      * intros [= -> ->]. exists self, w, w'. exact Hp.
    + rewrite Some_flatten_spec. discriminate.
    + unfold Some_map, bind. destruct (f self w) as [[u | e0] w0] eqn:Hf.
      * discriminate.
      * intros [= -> ->]. exists self, w, w'. exact Hf.
    + intros H. exists self, w, w'. exact H.
    + intros H. right. exists self, w, w'. exact H.
    + destruct other; try discriminate Hty; discriminate.
  - (* Nothing *)
    destruct m as [f|msg|predicate| | | |f|default f|default f|err|f| |default|f|f|other|item];
      simpl in *; try discriminate Hm; try discriminate.
    + intros H. left. exists w, w'. exact H.
    + intros H. exists w, w'. exact H.
    + intros H. exists w, w'. exact H.
Qed.


(** ** Caller-supplied functions *)

(** Case analysis on every run a goal inspects, until both sides agree. *)
Ltac split_runs :=
  repeat match goal with
         | |- context [match ?c with _ => _ end] =>
             lazymatch c with
             | context [match _ with _ => _ end] => fail
             | _ => destruct c
             end
         end;
  reflexivity.

(** A call with counting stubs for the functions runs as the call with the
    functions themselves, and the counter goes up by the number of calls
    made, which is zero or one. *)
Lemma instrument_counts {W} (self : pyval) (m : method pyval W) (w : W) (n : nat) :
  exists k : nat,
    (k <= 1)%nat
    /\ call self (instrument m) (w, n)
       = ((call self m w).1, ((call self m w).2, (n + k)%nat)).
Proof.
  assert (Hs : (n + 1)%nat = S n) by lia.
  destruct self;
    try (exists 0%nat; split; [ lia | rewrite Nat.add_0_r; destruct m; reflexivity ]).
  - (* Some: the function is called by and_then, filter, map, map_or, map_or_else *)
    destruct m as [f|msg|predicate| | | |f|default f|default f|err|f| |default|f|f|other|item];
      try (exists 0%nat; split; [ lia | rewrite Nat.add_0_r; reflexivity ]).
    + exists 1%nat. split; [ lia | ]. rewrite Hs. simpl.
      unfold Some_and_then, counted. simpl. split_runs.
    + exists 1%nat. split; [ lia | ]. rewrite Hs. simpl.
      unfold Some_filter, bind, counted, ret. simpl. split_runs.
    + exists 0%nat. split; [ lia | ]. rewrite Nat.add_0_r. simpl.
      unfold Some_flatten, Some_unwrap, OptionProtocol_unwrap, Some_expect, bind, ret.
      destruct (isinstance_OptionProtocol self); reflexivity.
    + exists 1%nat. split; [ lia | ]. rewrite Hs. simpl.
      unfold Some_map, bind, counted, ret. simpl. split_runs.
    + exists 1%nat. split; [ lia | ]. rewrite Hs. simpl.
      unfold Some_map_or, counted. simpl. split_runs.
    + exists 1%nat. split; [ lia | ]. rewrite Hs. simpl.
      unfold Some_map_or_else, counted. simpl. split_runs.
    + exists 0%nat. split; [ lia | ]. rewrite Nat.add_0_r. simpl.
      destruct other; reflexivity.
  - (* Nothing: the function is called by map_or_else, unwrap_or_else, or_else *)
    destruct m as [f|msg|predicate| | | |f|default f|default f|err|f| |default|f|f|other|item];
      try (exists 0%nat; split; [ lia | rewrite Nat.add_0_r; reflexivity ]);
      exists 1%nat; (split; [ lia | ]); rewrite Hs; simpl;
      unfold Nothing_map_or_else, Nothing_unwrap_or_else, Nothing_or_else, counted;
      simpl; split_runs.
Qed.

(** On the side that short-circuits the counter does not move: the
    function is not called at all. *)
Lemma short_circuit_calls_nothing {W} (f : pyval -> M W pyval) (t default : M W pyval)
    (value : pyval) (w : W) (n : nat) :
  (call VNothing (instrument (m_map f)) (w, n)).2 = (w, n)
  /\ (call VNothing (instrument (m_and_then f)) (w, n)).2 = (w, n)
  /\ (call VNothing (instrument (m_map_or_else default f)) (w, n)).2
     = ((default w).2, S n)
  /\ (call (VSome value) (instrument (m_or_else t)) (w, n)).2 = (w, n)
  /\ (call (VSome value) (instrument (m_unwrap_or_else t)) (w, n)).2 = (w, n)
  /\ (call (VSome value) (instrument (m_ok_or_else t)) (w, n)).2 = (w, n).
Proof.
  repeat split. simpl. unfold Nothing_map_or_else, counted. simpl.
  destruct (default w); reflexivity.
Qed.

(** C4.  Where a combinator short-circuits, its result and the world it
    leaves do not depend on the function it was given: [Nothing.map],
    [Nothing.and_then] and [Nothing.map_or_else] (in its second function),
    [Some.or_else], [Some.unwrap_or_else] and [Some.ok_or_else] run the
    same with [f] as with [g].  And no call of any operation invokes the
    functions it was given more than once in all: with counting stubs the
    call runs as before and the counter goes up by at most one. *)
Theorem short_circuit_ignores_function {W} (f g : pyval -> M W pyval)
    (t u default : M W pyval) (value : pyval) (w : W) :
  call VNothing (m_map f) w = call VNothing (m_map g) w
  /\ call VNothing (m_and_then f) w = call VNothing (m_and_then g) w
  /\ call VNothing (m_map_or_else default f) w
     = call VNothing (m_map_or_else default g) w
  /\ call (VSome value) (m_or_else t) w = call (VSome value) (m_or_else u) w
  /\ call (VSome value) (m_unwrap_or_else t) w
     = call (VSome value) (m_unwrap_or_else u) w
  /\ call (VSome value) (m_ok_or_else t) w = call (VSome value) (m_ok_or_else u) w
  /\ (forall (self : pyval) (m : method pyval W) (n : nat),
        exists k : nat,
          (k <= 1)%nat
          /\ call self (instrument m) (w, n)
             = ((call self m w).1, ((call self m w).2, (n + k)%nat))).
Proof.
  repeat split. intros self m n. apply instrument_counts.
Qed.

(** ** flatten and zip *)

(** C5.  [flatten] removes one level of nesting and no more:
    [Some(Some(w)).flatten()] is [Some(w)] and
    [Some(Some(Some(w))).flatten()] is [Some(Some(w))]; a [Some] whose
    payload is no Option is returned as it is; [Nothing().flatten()] is the
    receiver. *)
Theorem flatten_removes_one_level {W} (w v : pyval) (wd : W) :
  call (VSome (VSome w)) m_flatten wd = (Returns (VSome w), wd)
  /\ call (VSome (VSome (VSome w))) m_flatten wd = (Returns (VSome (VSome w)), wd)
  /\ (isinstance_OptionProtocol v = false ->
      call (VSome v) m_flatten wd = (Returns (VSome v), wd))
  /\ call VNothing m_flatten wd = (Returns VNothing, wd).
Proof.
  repeat split.
  intros Hv. change (call (VSome v) m_flatten wd) with (Some_flatten v wd).
  rewrite Some_flatten_spec, Hv. reflexivity.
Qed.

Lemma flatten_removes_one_level_witness :
  isinstance_OptionProtocol (VInt 5) = false
  /\ call (VSome (VInt 5)) m_flatten tt = (Returns (VSome (VInt 5)), tt).
Proof.
  split; [ reflexivity | ].
  apply (proj1 (proj2 (proj2 (flatten_removes_one_level (VInt 5) (VInt 5) tt)))).
  reflexivity.
Defined.

(** C6.  [Some(v).zip(Some(w))] is [Some((v, w))], [Some(v).zip(Nothing())]
    is [Nothing()], and [Nothing().zip(o)] is [Nothing()] for every [o]. *)
Theorem zip_pairs_two_Somes {W} (v w o : pyval) (wd : W) :
  call (VSome v) (m_zip (VSome w)) wd = (Returns (VSome (VTuple v w)), wd)
  /\ call (VSome v) (m_zip VNothing) wd = (Returns VNothing, wd)
  /\ call VNothing (m_zip o) wd = (Returns VNothing, wd).
Proof. repeat split. Qed.

(** What [==] says of the results above: they compare equal to the values
    the claims name. *)
Lemma zip_results_compare_equal (v w : pyval) :
  py_eq (VSome (VTuple v w)) (VSome (VTuple v w)) = true
  /\ py_eq VNothing VNothing = true.
Proof. split; [ apply py_eq_refl | reflexivity ]. Qed.

(** ** State predicates *)

(** C7.  [is_some] is true and [is_nothing] false on every [Some]; [is_some]
    is false and [is_nothing] true on [Nothing]; on every Option the two are
    complementary booleans, [is_some] being true exactly on a [Some].
    Likewise [is_ok] and [is_err] on every instance of [Ok] or [Err]:
    complementary, [is_ok] true exactly on an [Ok]. *)
Theorem state_predicates_are_complementary {W} (wd : W) :
  (forall v : pyval,
      call (VSome v) m_is_some wd = (Returns (VBool true), wd)
      /\ call (VSome v) m_is_nothing wd = (Returns (VBool false), wd))
  /\ call VNothing m_is_some wd = (Returns (VBool false), wd)
  /\ call VNothing m_is_nothing wd = (Returns (VBool true), wd)
  /\ (forall o : pyval,
      isinstance_OptionProtocol o = true ->
      exists b : bool,
        call o m_is_some wd = (Returns (VBool b), wd)
        /\ call o m_is_nothing wd = (Returns (VBool (negb b)), wd)
        /\ (b = true <-> exists v, o = VSome v))
  /\ (forall r : pyval,
      isinstance_ResultProtocol r = true ->
      exists b : bool,
        getattr_is_ok r wd = (Returns (VBool b), wd)
        /\ getattr_is_err r wd = (Returns (VBool (negb b)), wd)
        /\ (b = true <-> exists id, r = VObj Ok id)).
Proof.
  split; [ | split; [ | split; [ | split ] ] ]; try reflexivity.
  - intros v. split; reflexivity.
  - intros o Ho. destruct o; try discriminate Ho.
    + exists true. repeat split. eauto.
    + exists false. repeat split; [ discriminate | intros [v Hv]; discriminate ].
  - intros r Hr. destruct r as [ | | | | | | | c id]; try discriminate Hr.
    destruct c; try discriminate Hr.
    + exists true. repeat split. eauto.
    + exists false. repeat split; [ discriminate | intros [i Hi]; discriminate ].
Qed.

Lemma state_predicates_are_complementary_witness :
  exists b : bool,
    getattr_is_ok (VObj Err 7) tt = (Returns (VBool b), tt)
    /\ getattr_is_err (VObj Err 7) tt = (Returns (VBool (negb b)), tt)
    /\ (b = true <-> exists id, VObj Err 7 = VObj Ok id).
Proof.
  apply (proj2 (proj2 (proj2 (proj2 (state_predicates_are_complementary tt))))).
  reflexivity.
Defined.

(** ** unwrap *)

(** C9.  [unwrap] is [expect] applied to the fixed string: so it is
    defined in [OptionProtocol], so it runs on both classes; on [Some(v)] it
    returns [v] and on [Nothing] it raises [UnwrapError] with that text. *)
Theorem unwrap_is_expect_of_fixed_message {W} (value : pyval) (wd : W) :
  (forall (A : Type) (expect : string -> M W A),
      OptionProtocol_unwrap expect
      = expect "called `Option.unwrap()` on a `Nothing` value")
  /\ call (VSome value) m_unwrap wd
     = call (VSome value) (m_expect "called `Option.unwrap()` on a `Nothing` value") wd
  /\ call VNothing m_unwrap wd
     = call VNothing (m_expect "called `Option.unwrap()` on a `Nothing` value") wd
  /\ call (VSome value) m_unwrap wd = (Returns value, wd)
  /\ call VNothing m_unwrap wd
     = (Raises (UnwrapError "called `Option.unwrap()` on a `Nothing` value"), wd).
Proof. repeat split. Qed.

(** ** The two Err classes *)

(** C10.  On every instance, the [Err] of [oxidize/types_.py] answers the
    state predicates as the [Err] of [rutils/option.py] does: [is_ok] is
    false and [is_err] is true; and the oxidize [is_err] is the negation of
    what [is_ok] returns. *)
Theorem oxidize_Err_agrees_with_Err {W} (i j : nat) (wd : W) :
  getattr_is_ok (VObj Err i) wd = (Returns (VBool false), wd)
  /\ getattr_is_ok (VObj oxidize_Err j) wd = (Returns (VBool false), wd)
  /\ getattr_is_err (VObj Err i) wd = (Returns (VBool true), wd)
  /\ getattr_is_err (VObj oxidize_Err j) wd = (Returns (VBool true), wd)
  /\ oxidize_Err_is_err (VObj oxidize_Err j) wd
     = (b <- oxidize_Err_is_ok (VObj oxidize_Err j) ;; ret (VBool (negb (truth b)))) wd.
Proof. repeat split. Qed.



(** * Properties of the store layer *)

Module Frame.
Import Store.

(** ** The primitives keep the frozen instances *)

Lemma keeps_frozen_ret {A} (a : A) : keeps_frozen (ret a).
Proof. intros h b o Hb _. exact Hb. Qed.

Lemma keeps_frozen_raise {A} (e : exn) : keeps_frozen (@raise heap A e).
Proof. intros h b o Hb _. exact Hb. Qed.

Lemma keeps_frozen_bind {A B} (c : M heap A) (k : A -> M heap B) :
  keeps_frozen c -> (forall x, keeps_frozen (k x)) -> keeps_frozen (bind c k).
Proof.
  intros Hc Hk h b o Hb Hfr. unfold bind.
  specialize (Hc h b o Hb Hfr).
  destruct (c h) as [[x | e] h']; simpl in Hc.
  - apply Hk; assumption.
  - exact Hc.
Qed.

(** Allocation writes at an address that was free, so it overwrites
    nothing. *)
Lemma alloc_keeps_heap (p : instance) (h : heap) (b : nat) (o : instance) :
  h !! b = Some o -> (alloc p h).2 !! b = Some o.
Proof.
  intros Hb. unfold alloc. simpl.
  rewrite lookup_insert_ne; [ exact Hb | ].
  intros Heq. subst b. apply (is_fresh (dom h)). apply elem_of_dom. eauto.
Qed.

Lemma keeps_frozen_alloc (p : instance) : keeps_frozen (alloc p).
Proof. intros h b o Hb _. apply alloc_keeps_heap, Hb. Qed.

Lemma keeps_frozen_type_of (x : val) : keeps_frozen (type_of x).
Proof. intros h b o Hb _. destruct x; exact Hb. Qed.

(** The getter of a property reads: it leaves the heap as it was. *)
Lemma property_reads (k : klass) (name : string) (getter : val -> M heap val)
    (x : val) (h : heap) :
  property k name = Some getter -> (getter x h).2 = h.
Proof.
  destruct k as [ | | [ | | ]]; simpl;
    repeat match goal with
           | |- context [String.eqb ?a ?b] => destruct (String.eqb a b)
           end;
    intros [= <-]; try reflexivity.
  unfold oxidize_Err_is_err, getattr_is_ok, bind, type_of.
  destruct x as [ | | | | | a]; try reflexivity.
  destruct (h !! a) as [[[ | | [ | | ]] d] | ]; reflexivity.
Qed.

(** No class has a property named [value]; [is_some] is one on the two
    dataclasses and on no other class. *)
Lemma property_value (k : klass) : property k "value" = None.
Proof. destruct k as [ | | [ | | ]]; reflexivity. Qed.

(** Reading the field [value] is a lookup in the dictionary of the
    instance, whatever its class. *)
Lemma getattr_value (h : heap) (a : nat) (o : instance) :
  h !! a = Some o ->
  getattr (Ref a) "value" h
  = match dict o !! "value" with
    | Some v => (Returns v, h)
    | None => (Raises (AttributeError "value"), h)
    end.
Proof. intros Ha. unfold getattr. rewrite Ha, property_value. reflexivity. Qed.

(** Reading an attribute leaves the heap as it was. *)
Lemma getattr_reads (x : val) (name : string) (h : heap) :
  (getattr x name h).2 = h.
Proof.
  unfold getattr.
  destruct x as [ | | | | | a]; try reflexivity.
  destruct (h !! a) as [p | ]; [ | reflexivity ].
  destruct (property (class_of p) name) as [getter | ] eqn:Hp.
  - apply (property_reads _ _ _ _ _ Hp).
  - destruct (dict p !! name); reflexivity.
Qed.

Lemma keeps_frozen_getattr (x : val) (name : string) : keeps_frozen (getattr x name).
Proof. intros h b o Hb _. rewrite getattr_reads. exact Hb. Qed.

Lemma keeps_frozen_object_setattr_plain (a : nat) (p : instance) (name : string)
    (v : val) (h : heap) (b : nat) (o : instance) :
  h !! a = Some p -> frozen (class_of p) = false ->
  h !! b = Some o -> frozen (class_of o) = true ->
  (object_setattr (Ref a) name v h).2 !! b = Some o.
Proof.
  intros Ha Hp Hb Hfr. unfold object_setattr. rewrite Ha.
  destruct (property (class_of p) name); [ exact Hb | ].
  simpl. rewrite lookup_insert_ne; [ exact Hb | ].
  intros ->. rewrite Hb in Ha. injection Ha as ->. congruence.
Qed.

(** [setattr] stores only into an instance of a plain class. *)
Lemma keeps_frozen_setattr (x : val) (name : string) (v : val) :
  keeps_frozen (setattr x name v).
Proof.
  intros h b o Hb Hfr. unfold setattr.
  destruct x as [ | | | | | a]; try exact Hb.
  destruct (h !! a) as [p | ] eqn:Ha; [ | exact Hb ].
  destruct (frozen (class_of p)) eqn:Hp; [ exact Hb | ].
  apply (keeps_frozen_object_setattr_plain a p); assumption.
Qed.

Lemma keeps_frozen_delattr (x : val) (name : string) : keeps_frozen (delattr x name).
Proof.
  intros h b o Hb Hfr. unfold delattr.
  destruct x as [ | | | | | a]; try exact Hb.
  destruct (h !! a) as [p | ] eqn:Ha; [ | exact Hb ].
  destruct (frozen (class_of p)) eqn:Hp; [ exact Hb | ].
  destruct (property (class_of p) name); [ exact Hb | ].
  destruct (dict p !! name); [ | exact Hb ].
  simpl. rewrite lookup_insert_ne; [ exact Hb | ].
  intros ->. rewrite Hb in Ha. injection Ha as ->. congruence.
Qed.

Lemma keeps_frozen_eq_op (x y : val) : keeps_frozen (eq_op x y).
Proof.
  intros h b o Hb _. unfold eq_op.
  destruct (py_eq (S (size h)) h x y); exact Hb.
Qed.

Lemma keeps_frozen_isinstance (t : val) : keeps_frozen (isinstance_OptionProtocol t).
Proof.
  apply keeps_frozen_bind; [ apply keeps_frozen_type_of | intros; apply keeps_frozen_ret ].
Qed.

Create HintDb frozen.
#[local] Hint Resolve keeps_frozen_ret keeps_frozen_raise keeps_frozen_alloc
  keeps_frozen_type_of keeps_frozen_getattr keeps_frozen_setattr
  keeps_frozen_delattr keeps_frozen_eq_op keeps_frozen_isinstance : frozen.

(** A computation built from the primitives, from computations known to
    keep the frozen instances, and from tests. *)
Ltac solve_frozen :=
  repeat first
    [ assumption
    | solve [ auto with frozen ]
    | apply keeps_frozen_bind; [ | intros ]
    | match goal with
      | |- keeps_frozen (if ?b then _ else _) => destruct b
      | |- keeps_frozen (match ?k with _ => _ end) => destruct k
      end ].

Ltac split_hyp H :=
  lazymatch type of H with
  | _ /\ _ => let H1 := fresh H in destruct H as [H1 H]
  | _ => idtac
  end.

(** ** Every operation keeps the frozen instances *)

Lemma keeps_frozen_call (self : val) (m : method val heap) :
  callbacks_keep_frozen m -> keeps_frozen (call self m).
Proof.
  intros Hm. unfold call.
  apply keeps_frozen_bind; [ apply keeps_frozen_type_of | ].
  intros [[ | | c] | ]; try apply keeps_frozen_raise.
  - (* Some *)
    destruct m; simpl in Hm; split_hyp Hm;
      unfold Some_and_then, Some_expect, Some_filter, Some_flatten,
        Some_is_nothing, Some_is_some, Some_map, Some_map_or,
        Some_map_or_else, Some_ok_or, Some_ok_or_else, Some_unwrap,
        Some_unwrap_or, Some_unwrap_or_else, Some_or_else, Some_zip,
        Some_contains, getattr_is_some, call_unwrap, Some_unwrap,
        Nothing_unwrap, OptionProtocol_unwrap, Some_expect, Nothing_expect,
        Some_is_some, Nothing_is_some, Some_new, Nothing_new;
      solve_frozen.
  - (* Nothing *)
    destruct m; simpl in Hm; split_hyp Hm;
      unfold Nothing_and_then, Nothing_expect, Nothing_filter,
        Nothing_flatten, Nothing_is_nothing, Nothing_is_some, Nothing_map,
        Nothing_map_or, Nothing_map_or_else, Nothing_ok_or,
        Nothing_ok_or_else, Nothing_unwrap, Nothing_unwrap_or,
        Nothing_unwrap_or_else, Nothing_or_else, Nothing_zip,
        Nothing_contains, OptionProtocol_unwrap, Nothing_expect, Nothing_new;
      solve_frozen.
Qed.




(** ** Identity of the plain classes *)

(** Two objects allocated one after the other have different addresses. *)
Lemma alloc_twice_differs (p q : instance) (h : heap) :
  fresh (dom (<[fresh (dom h) := p]> h)) <> fresh (dom h).
Proof.
  intros Heq.
  apply (is_fresh (dom (<[fresh (dom h) := p]> h))).
  rewrite Heq at 1. apply elem_of_dom. rewrite lookup_insert_eq. eauto.
Qed.

(** [Ok() == Ok()] is [False] in every heap: the two calls build two
    objects, and [Ok] compares by identity. *)
Lemma two_Ok_instances_differ (h : heap) :
  ((o1 <- Ok_new [] ;; o2 <- Ok_new [] ;; eq_op o1 o2) h).1
  = Returns (RBool false).
Proof.
  unfold bind, Ok_new, alloc, eq_op. simpl.
  set (a := fresh (dom h)).
  set (h1 := <[a := Instance (cPlain Ok) ∅]> h).
  set (b := fresh (dom h1)).
  assert (Hab : b <> a) by apply (alloc_twice_differs _ (Instance (cPlain Ok) ∅)).
  rewrite lookup_insert_ne by exact Hab.
  unfold h1 at 1. rewrite lookup_insert_eq, lookup_insert_eq. simpl.
  replace (Nat.eqb a b) with false; [ reflexivity | ].
  symmetry. apply Nat.eqb_neq. congruence.
Qed.

End Frame.

(** * Equality of Results *)

(** C2.  What the code does on the Result side of the claim.  [Ok] and
    [Err] take no payload: a constructor call with an argument raises
    [TypeError].  And they compare by identity: two instances of [Ok] (or of
    [Err]) are equal exactly when they are the same object, so two instances
    built by two calls, same variant and nothing to tell them apart, are
    unequal. *)
Theorem Result_equality_is_identity {W} (i j : nat) (a : pyval) (rest : list pyval)
    (w : W) (h : Store.heap) :
  Ok_new i (a :: rest) w = (Raises (TypeError "Ok() takes no arguments"), w)
  /\ Err_new i (a :: rest) w = (Raises (TypeError "Err() takes no arguments"), w)
  /\ Ok_new i [] w = (Returns (VObj Ok i), w)
  /\ Err_new i [] w = (Returns (VObj Err i), w)
  /\ (py_eq (VObj Ok i) (VObj Ok j) = true <-> i = j)
  /\ (py_eq (VObj Err i) (VObj Err j) = true <-> i = j)
  /\ py_eq (VObj Ok 0) (VObj Ok 1) = false
  /\ ((o1 <- Store.Ok_new [] ;; o2 <- Store.Ok_new [] ;; Store.eq_op o1 o2) h).1
     = Returns (Store.RBool false).
Proof.
  repeat split; simpl; try apply Nat.eqb_eq; try (intros ->; apply Nat.eqb_refl).
  apply Frame.two_Ok_instances_differ.
Qed.

(** * The two layers agree *)

Module Refinement.

(** The names of the value layer that the store layer uses too. *)
#[local] Abbreviation tree_truth := truth.
#[local] Abbreviation tree_eq := py_eq.
#[local] Abbreviation tree_call := call.

Import Store.

(** ** Heaps that extend one another *)

Lemma extends_refl (h : heap) : extends h h.
Proof. intros a o Ha. exists o. auto. Qed.

Lemma extends_trans (h1 h2 h3 : heap) :
  extends h1 h2 -> extends h2 h3 -> extends h1 h3.
Proof.
  intros H12 H23 a o Ha.
  destruct (H12 a o Ha) as (o2 & Ha2 & Hc2 & Hf2).
  destruct (H23 a o2 Ha2) as (o3 & Ha3 & Hc3 & Hf3).
  exists o3. split; [ exact Ha3 | split ].
  - congruence.
  - intros Hfr. rewrite <- (Hf2 Hfr). apply Hf3. rewrite Hc2. exact Hfr.
Qed.

Lemma extends_alloc (h : heap) (p : instance) :
  extends h (<[fresh (dom h) := p]> h).
Proof.
  intros a o Ha. exists o. split; [ | auto ].
  rewrite lookup_insert_ne; [ exact Ha | ].
  intros Heq. subst a. apply (is_fresh (dom h)). apply elem_of_dom. eauto.
Qed.

(** ** Reading is stable and functional *)

Lemma repr_mono (h h' : heap) (x : val) (t : pyval) :
  extends h h' -> repr h x t -> repr h' x t.
Proof.
  intros Hext Hr. induction Hr as
    [ | | | | a b ta tb _ IHa _ IHb | a o v t Ha Hc Hv _ IH | a o Ha Hc | a o c Ha Hc ].
  - constructor.
  - constructor.
  - constructor.
  - constructor.
  - constructor; assumption.
  - destruct (Hext a o Ha) as (o' & Ha' & Hc' & Hf').
    assert (o' = o) as -> by (apply Hf'; rewrite Hc; reflexivity).
    econstructor; eassumption.
  - destruct (Hext a o Ha) as (o' & Ha' & Hc' & Hf').
    econstructor; [ exact Ha' | congruence ].
  - destruct (Hext a o Ha) as (o' & Ha' & Hc' & Hf').
    econstructor; [ exact Ha' | congruence ].
Qed.

Lemma repr_functional (h : heap) (x : val) (t u : pyval) :
  repr h x t -> repr h x u -> t = u.
Proof.
  intros Ht. revert u. induction Ht as
    [ | | | | a b ta tb _ IHa _ IHb | a o v t Ha Hc Hv _ IH | a o Ha Hc | a o c Ha Hc ];
    intros u Hu; inversion Hu; subst; try reflexivity;
    try (f_equal; auto; fail);
    match goal with
    | H1 : h !! ?a = Some ?o, H2 : h !! ?a = Some ?p |- _ =>
        rewrite H1 in H2; injection H2 as ->
    end;
    try congruence.
  f_equal. apply IH. congruence.
Qed.

Lemma truth_repr (h : heap) (x : val) (t : pyval) :
  repr h x t -> truth x = tree_truth t.
Proof. intros Hr. destruct Hr; reflexivity. Qed.

(** ** A chain of [Some] is no longer than the heap *)

(** The tree of the field of a [Some] is read without the [Some] itself: a
    second visit would read the same tree inside itself. *)
Lemma repr_delete (h : heap) (a : nat) (o : instance) (v : val) (t : pyval) :
  h !! a = Some o -> class_of o = cSome -> dict o !! "value" = Some v ->
  repr h v t ->
  forall (x : val) (u : pyval),
    repr h x u -> (nodes u <= nodes t)%nat -> repr (delete a h) x u.
Proof.
  intros Ha Hc Hv Ht x u Hu.
  induction Hu as
    [ | | | | x y tx ty _ IHx _ IHy | b p w u Hb Hcp Hw Hu IH | b p Hb Hcp | b p c Hb Hcp ];
    intros Hn; simpl in Hn.
  - constructor.
  - constructor.
  - constructor.
  - constructor.
  - constructor; [ apply IHx | apply IHy ]; lia.
  - destruct (decide (b = a)) as [-> | Hne].
    + rewrite Ha in Hb. injection Hb as <-.
      rewrite Hv in Hw. injection Hw as <-.
      rewrite (repr_functional h v u t Hu Ht) in Hn. lia.
    + econstructor; [ rewrite lookup_delete_ne by congruence; exact Hb | | | ];
        [ assumption | eassumption | apply IH; lia ].
  - econstructor; [ | exact Hcp ].
    rewrite lookup_delete_ne; [ exact Hb | ]. intros <-. congruence.
  - econstructor; [ | exact Hcp ].
    rewrite lookup_delete_ne; [ exact Hb | ]. intros <-. congruence.
Qed.

Lemma height_le_size (t : pyval) :
  forall (h : heap) (x : val), repr h x t -> (height t <= size h)%nat.
Proof.
  induction t as [ | | | | ta IHa tb IHb | t IH | | ]; intros h x Hr; simpl;
    try lia.
  - inversion Hr; subst. apply Nat.max_lub; eauto.
  - inversion Hr as [ | | | | | a o v t' Ha Hc Hv Ht | | ]; subst.
    pose proof (repr_delete h a o v t Ha Hc Hv Ht v t Ht (le_n _)) as Hd.
    apply IH in Hd.
    rewrite map_size_delete_Some in Hd by eauto.
    assert (size h <> 0%nat) by (apply (map_size_ne_0_lookup_2 h a); eauto).
    lia.
Qed.

(** ** [==] agrees *)

Lemma py_eq_S (fuel : nat) (h : heap) (x y : val) :
  py_eq (S fuel) h x y
  = match x, y with
    | RNone, RNone => Some true
    | RBool a, RBool b => Some (Z.b2z a =? Z.b2z b)
    | RBool a, RInt n => Some (Z.b2z a =? n)
    | RInt m, RBool b => Some (m =? Z.b2z b)
    | RInt m, RInt n => Some (m =? n)
    | RStr s, RStr t => Some (String.eqb s t)
    | RTuple a b, RTuple c d =>
        match py_eq (S fuel) h a c with
        | Some true => py_eq (S fuel) h b d
        | r => r
        end
    | Ref a, Ref b =>
        match h !! a, h !! b with
        | Some o, Some p =>
            match class_of o, class_of p with
            | cSome, cSome =>
                match dict o !! "value", dict p !! "value" with
                | Some v, Some u => py_eq fuel h v u
                | _, _ => Some (Nat.eqb a b)
                end
            | cNothing, cNothing => Some true
            | _, _ => Some (Nat.eqb a b)
            end
        | _, _ => Some (Nat.eqb a b)
        end
    | _, _ => Some false
    end.
Proof. destruct x, y; reflexivity. Qed.

(** Two live objects of different classes have different addresses. *)
Lemma different_class_different_address (h : heap) (a b : nat) (o p : instance) :
  h !! a = Some o -> h !! b = Some p -> class_of o <> class_of p ->
  Nat.eqb a b = false.
Proof.
  intros Ha Hb Hne. apply Nat.eqb_neq. intros ->. congruence.
Qed.

Lemma py_eq_agree (fuel : nat) (h : heap) :
  forall (x : val) (tx : pyval),
    repr h x tx ->
    forall (y : val) (ty : pyval),
      repr h y ty -> (height tx < fuel)%nat ->
      py_eq fuel h x y = Some (tree_eq tx ty).
Proof.
  induction fuel as [ | fuel IHfuel]; intros x tx Hx; [ intros; lia | ].
  induction Hx as
    [ | | | | a b ta tb _ IHa _ IHb | a o v t Ha Hc Hv Ht _ | a o Ha Hc | a o c Ha Hc ];
    intros y ty Hy Hh; rewrite py_eq_S;
    destruct Hy as
      [ | | | | a' b' ta' tb' Ha' Hb' | a' o' v' t' Ha' Hc' Hv' Ht' | a' o' Ha' Hc'
      | a' o' c' Ha' Hc' ];
    try reflexivity; simpl in Hh.
  - (* two pairs *)
    rewrite (IHa a' ta' Ha') by lia. rewrite (IHb b' tb' Hb') by lia.
    simpl. destruct (tree_eq ta ta'); reflexivity.
  - (* two Some *)
    rewrite Ha, Ha', Hc, Hc', Hv, Hv'. apply (IHfuel v t Ht v' t' Ht'). lia.
  - (* Some, Nothing *)
    rewrite Ha, Ha', Hc, ?Hc'. simpl. f_equal.
    apply (different_class_different_address h a a' o o'); congruence.
  - (* Some, plain *)
    rewrite Ha, Ha', Hc, ?Hc'. simpl. f_equal.
    apply (different_class_different_address h a a' o o'); congruence.
  - (* Nothing, Some *)
    rewrite Ha, Ha', Hc, ?Hc'. simpl. f_equal.
    apply (different_class_different_address h a a' o o'); congruence.
  - (* two Nothing *)
    rewrite Ha, Ha', Hc, ?Hc'. reflexivity.
  - (* Nothing, plain *)
    rewrite Ha, Ha', Hc, ?Hc'. simpl. f_equal.
    apply (different_class_different_address h a a' o o'); congruence.
  - (* plain, Some *)
    rewrite Ha, Ha', Hc, ?Hc'. simpl. f_equal.
    apply (different_class_different_address h a a' o o'); congruence.
  - (* plain, Nothing *)
    rewrite Ha, Ha', Hc, ?Hc'. simpl. f_equal.
    apply (different_class_different_address h a a' o o'); congruence.
  - (* two plain objects: identity *)
    rewrite Ha, Ha', Hc, ?Hc'. simpl. f_equal.
    destruct (Nat.eqb a a') eqn:Heq.
    + apply Nat.eqb_eq in Heq. subst a'.
      rewrite Ha in Ha'. injection Ha' as <-.
      rewrite Hc in Hc'. injection Hc' as <-.
      rewrite andb_true_r. destruct c; reflexivity.
    + rewrite andb_false_r. reflexivity.
Qed.

(** The operator [==] of the store layer computes the [==] of the trees,
    and leaves the heap alone. *)
Lemma eq_op_agree (h : heap) (x y : val) (tx ty : pyval) :
  repr h x tx -> repr h y ty ->
  eq_op x y h = (Returns (RBool (tree_eq tx ty)), h).
Proof.
  intros Hx Hy. unfold eq_op.
  rewrite (py_eq_agree (S (size h)) h x tx Hx y ty Hy); [ reflexivity | ].
  pose proof (height_le_size tx h x Hx). lia.
Qed.

End Refinement.

Module Agreement.

Section Simulation.
Context {W : Type} (R : Store.heap -> W -> Prop).
Hypothesis R_stable : Store.stable_under_alloc R.

#[local] Abbreviation sim_from := (Store.sim_from R).
#[local] Abbreviation fun_rel := (Store.fun_rel R).
#[local] Abbreviation thunk_rel := (Store.thunk_rel R).

(** ** Steps that both layers take *)

Lemma sim_ret (h0 : Store.heap) (x : Store.val) (t : pyval) :
  Store.repr h0 x t -> sim_from h0 (ret x) (ret t).
Proof.
  intros Hr h w Hext HR. simpl.
  split; [ apply Refinement.extends_refl | split; [ exact HR | ] ].
  apply (Refinement.repr_mono h0 h); assumption.
Qed.

Lemma sim_raise (h0 : Store.heap) (e : exn) : sim_from h0 (raise e) (raise e).
Proof.
  intros h w Hext HR. simpl.
  split; [ apply Refinement.extends_refl | split; [ exact HR | reflexivity ] ].
Qed.

Lemma sim_bind (h0 : Store.heap) (c : M Store.heap Store.val) (d : M W pyval)
    (k : Store.val -> M Store.heap Store.val) (k' : pyval -> M W pyval) :
  sim_from h0 c d ->
  (forall h1 x t, Store.extends h0 h1 -> Store.repr h1 x t -> sim_from h1 (k x) (k' t)) ->
  sim_from h0 (bind c k) (bind d k').
Proof.
  intros Hc Hk h w Hext HR.
  destruct (Hc h w Hext HR) as (He & HR' & Ho).
  unfold bind.
  destruct (c h) as [[x | e] h'], (d w) as [[t | e'] w']; simpl in *;
    try contradiction.
  - assert (Hext' : Store.extends h0 h') by (eapply Refinement.extends_trans; eassumption).
    destruct (Hk h' x t Hext' Ho h' w' (Refinement.extends_refl h') HR')
      as (He2 & HR2 & Ho2).
    split; [ eapply Refinement.extends_trans; eassumption | split; assumption ].
  - split; [ assumption | split; assumption ].
Qed.

Lemma sim_weaken (h0 h1 : Store.heap) (c : M Store.heap Store.val) (d : M W pyval) :
  Store.extends h0 h1 -> sim_from h0 c d -> sim_from h1 c d.
Proof.
  intros H01 Hc h w Hext HR. apply Hc; [ | exact HR ].
  eapply Refinement.extends_trans; eassumption.
Qed.

(** ** Steps of the store layer alone *)

Lemma sim_getattr_value (h0 : Store.heap) (self : Store.val) (t : pyval)
    (k : Store.val -> M Store.heap Store.val) (d : M W pyval) :
  Store.repr h0 self (VSome t) ->
  (forall v, Store.repr h0 v t -> sim_from h0 (k v) d) ->
  sim_from h0 (bind (Store.getattr self "value") k) d.
Proof.
  intros Hself Hk h w Hext HR.
  inversion Hself as [ | | | | | a o v t' Ha Hc Hv Ht | | ]; subst.
  destruct (Hext a o Ha) as (o' & Ha' & _ & Hf).
  assert (o' = o) as -> by (apply Hf; rewrite Hc; reflexivity).
  unfold bind. rewrite (Frame.getattr_value h a o Ha'), Hv.
  apply (Hk v Ht h w Hext HR).
Qed.

Lemma sim_type_of (h0 : Store.heap) (self : Store.val) (t : pyval)
    (k : option Store.klass -> M Store.heap Store.val) (d : M W pyval) :
  Store.repr h0 self t ->
  sim_from h0 (k (Store.klass_of_tree t)) d ->
  sim_from h0 (bind (Store.type_of self) k) d.
Proof.
  intros Hself Hk h w Hext HR.
  unfold bind, Store.type_of.
  destruct Hself as [ | | | | | a o v t Ha Hc Hv Ht | a o Ha Hc | a o c Ha Hc ];
    try apply (Hk h w Hext HR);
    destruct (Hext a o Ha) as (o' & Ha' & Hc' & _);
    rewrite Ha'; simpl; rewrite Hc', Hc; apply (Hk h w Hext HR).
Qed.

Lemma sim_Some_new (h0 : Store.heap) (u : Store.val) (t : pyval) :
  Store.repr h0 u t -> sim_from h0 (Store.Some_new u) (ret (VSome t)).
Proof.
  intros Hu h w Hext HR. unfold Store.Some_new, Store.alloc. simpl.
  split; [ apply Refinement.extends_alloc | split ].
  - apply R_stable; [ exact HR | reflexivity ].
  - eapply Store.repr_Some.
    + apply lookup_insert_eq.
    + reflexivity.
    + simpl. apply lookup_singleton_eq.
    + apply (Refinement.repr_mono h0); [ | exact Hu ].
      eapply Refinement.extends_trans; [ exact Hext | apply Refinement.extends_alloc ].
Qed.

Lemma sim_Nothing_new (h0 : Store.heap) :
  sim_from h0 Store.Nothing_new (ret VNothing).
Proof.
  intros h w Hext HR. unfold Store.Nothing_new, Store.alloc. simpl.
  split; [ apply Refinement.extends_alloc | split ].
  - apply R_stable; [ exact HR | reflexivity ].
  - eapply Store.repr_Nothing; [ apply lookup_insert_eq | reflexivity ].
Qed.

Lemma sim_eq_op (h0 : Store.heap) (x y : Store.val) (tx ty : pyval) :
  Store.repr h0 x tx -> Store.repr h0 y ty ->
  sim_from h0 (Store.eq_op x y) (ret (VBool (py_eq tx ty))).
Proof.
  intros Hx Hy h w Hext HR.
  rewrite (Refinement.eq_op_agree h x y tx ty)
    by (eapply Refinement.repr_mono; eassumption).
  simpl. split; [ apply Refinement.extends_refl | split; [ exact HR | constructor ] ].
Qed.

Lemma sim_ext (h0 : Store.heap) (c c' : M Store.heap Store.val) (d d' : M W pyval) :
  (forall h, c h = c' h) -> (forall w, d w = d' w) ->
  sim_from h0 c d -> sim_from h0 c' d'.
Proof.
  intros Hc Hd Hsim h w Hext HR. rewrite <- Hc, <- Hd. apply Hsim; assumption.
Qed.

Lemma sim_getattr_value_ret (h0 : Store.heap) (self : Store.val) (t : pyval) :
  Store.repr h0 self (VSome t) ->
  sim_from h0 (Store.getattr self "value") (ret t).
Proof.
  intros Hself.
  apply (sim_ext h0 (bind (Store.getattr self "value") ret) _ (ret t) _).
  - intros h. unfold bind. destruct (Store.getattr self "value" h) as [[] ?]; reflexivity.
  - reflexivity.
  - apply (sim_getattr_value h0 self t); [ exact Hself | ].
    intros v Hv. apply sim_ret, Hv.
Qed.

Lemma sim_isinstance (h0 : Store.heap) (x : Store.val) (t : pyval)
    (k : bool -> M Store.heap Store.val) (d : M W pyval) :
  Store.repr h0 x t ->
  sim_from h0 (k (isinstance_OptionProtocol t)) d ->
  sim_from h0 (bind (Store.isinstance_OptionProtocol x) k) d.
Proof.
  intros Hx Hk h w Hext HR.
  unfold bind, Store.isinstance_OptionProtocol, Store.type_of, ret, bind.
  destruct Hx as [ | | | | | a o v t Ha Hc Hv Ht | a o Ha Hc | a o c Ha Hc ];
    try apply (Hk h w Hext HR);
    destruct (Hext a o Ha) as (o' & Ha' & Hc' & _);
    rewrite Ha'; simpl; rewrite Hc', Hc; apply (Hk h w Hext HR).
Qed.

(** ** Computations that only read *)

Lemma sim_reads_l (h0 : Store.heap) (c : M Store.heap Store.val) (x : Store.val)
    (k : Store.val -> M Store.heap Store.val) (d : M W pyval) :
  Store.reads h0 c x -> sim_from h0 (k x) d -> sim_from h0 (bind c k) d.
Proof.
  intros Hc Hk h w Hext HR. unfold bind. rewrite (Hc h Hext).
  apply Hk; assumption.
Qed.

Lemma sim_raises_l (h0 : Store.heap) (c : M Store.heap Store.val) (e : exn)
    (k : Store.val -> M Store.heap Store.val) (d : M W pyval) :
  (forall h, Store.extends h0 h -> c h = (Raises e, h)) ->
  sim_from h0 (raise e) d -> sim_from h0 (bind c k) d.
Proof.
  intros Hc Hk h w Hext HR. unfold bind. rewrite (Hc h Hext).
  apply (Hk h w Hext HR).
Qed.

Lemma raises_is_some_scalar (h0 : Store.heap) (x : Store.val) :
  (forall a, x <> Store.Ref a) ->
  forall h, Store.extends h0 h -> Store.getattr_is_some x h = (Raises (AttributeError "is_some"), h).
Proof.
  intros Hx h _. unfold Store.getattr_is_some, bind, Store.type_of.
  destruct x; try reflexivity. exfalso. eapply Hx. reflexivity.
Qed.

Lemma extends_frozen (h0 h : Store.heap) (a : nat) (o : Store.instance) :
  Store.extends h0 h -> h0 !! a = Some o -> Store.frozen (Store.class_of o) = true ->
  h !! a = Some o.
Proof.
  intros Hext Ha Hfr. destruct (Hext a o Ha) as (o' & Ha' & _ & Hf).
  rewrite Ha'. f_equal. apply Hf, Hfr.
Qed.

Lemma reads_unwrap_Some (h0 : Store.heap) (a : nat) (o : Store.instance) (v : Store.val) :
  h0 !! a = Some o -> Store.class_of o = Store.cSome ->
  Store.dict o !! "value" = Some v ->
  Store.reads h0 (Store.Some_unwrap (Store.Ref a)) v.
Proof.
  intros Ha Hc Hv h Hext.
  unfold Store.Some_unwrap, OptionProtocol_unwrap, Store.Some_expect.
  rewrite (Frame.getattr_value h a o), Hv; [ reflexivity | ].
  apply (extends_frozen h0 h a o Hext Ha). rewrite Hc. reflexivity.
Qed.

Lemma reads_is_some_Some (h0 : Store.heap) (a : nat) (o : Store.instance) :
  h0 !! a = Some o -> Store.class_of o = Store.cSome ->
  Store.reads h0 (Store.getattr_is_some (Store.Ref a)) (Store.RBool true).
Proof.
  intros Ha Hc h Hext.
  unfold Store.getattr_is_some, bind, Store.type_of.
  rewrite (extends_frozen h0 h a o Hext Ha) by (rewrite Hc; reflexivity).
  simpl. rewrite Hc. reflexivity.
Qed.

Lemma reads_is_some_Nothing (h0 : Store.heap) (a : nat) (o : Store.instance) :
  h0 !! a = Some o -> Store.class_of o = Store.cNothing ->
  Store.reads h0 (Store.getattr_is_some (Store.Ref a)) (Store.RBool false).
Proof.
  intros Ha Hc h Hext.
  unfold Store.getattr_is_some, bind, Store.type_of.
  rewrite (extends_frozen h0 h a o Hext Ha) by (rewrite Hc; reflexivity).
  simpl. rewrite Hc. reflexivity.
Qed.

Lemma raises_is_some_plain (h0 : Store.heap) (a : nat) (o : Store.instance) (c : cls) :
  h0 !! a = Some o -> Store.class_of o = Store.cPlain c ->
  forall h, Store.extends h0 h ->
    Store.getattr_is_some (Store.Ref a) h = (Raises (AttributeError "is_some"), h).
Proof.
  intros Ha Hc h Hext.
  destruct (Hext a o Ha) as (o' & Ha' & Hc' & _).
  unfold Store.getattr_is_some, bind, Store.type_of.
  rewrite Ha'. simpl. rewrite Hc', Hc. reflexivity.
Qed.

Lemma reads_call_unwrap_Some (h0 : Store.heap) (a : nat) (o : Store.instance)
    (v : Store.val) :
  h0 !! a = Some o -> Store.class_of o = Store.cSome ->
  Store.dict o !! "value" = Some v ->
  Store.reads h0 (Store.call_unwrap (Store.Ref a)) v.
Proof.
  intros Ha Hc Hv h Hext.
  unfold Store.call_unwrap, bind, Store.type_of.
  rewrite (extends_frozen h0 h a o Hext Ha) by (rewrite Hc; reflexivity).
  simpl. rewrite Hc.
  apply (reads_unwrap_Some h0 a o v Ha Hc Hv h Hext).
Qed.

(** ** The operations *)

Lemma args_rel_method_name (h0 : Store.heap) (m : method Store.val Store.heap)
    (n : method pyval W) :
  Store.args_rel R h0 m n -> method_name m = method_name n.
Proof. destruct m, n; simpl; intros H; try contradiction; reflexivity. Qed.

Lemma Some_refines (h0 : Store.heap) (self : Store.val) (value : pyval)
    (m : method Store.val Store.heap) (n : method pyval W) :
  Store.repr h0 self (VSome value) ->
  Store.args_rel R h0 m n ->
  sim_from h0 (Store.call self m) (call (VSome value) n).
Proof.
  intros Hself Hargs.
  unfold Store.call. apply (sim_type_of h0 self (VSome value)); [ exact Hself | ].
  simpl Store.klass_of_tree. cbv iota beta.
  destruct m as [f|msg|f| | | |f|dflt f|dflt f|err|f| |dflt|f|f|other|item],
           n as [g|msg'|g| | | |g|dflt' g|dflt' g|err'|g| |dflt'|g|g|other'|item'];
    simpl in Hargs; try contradiction; simpl call.
  - (* and_then *)
    apply (sim_getattr_value h0 self value); [ exact Hself | ].
    intros v Hv. apply Hargs, Hv.
  - (* expect *)
    apply sim_getattr_value_ret, Hself.
  - (* filter *)
    apply (sim_getattr_value h0 self value); [ exact Hself | ].
    intros v Hv. apply sim_bind; [ apply Hargs, Hv | ].
    intros h1 b tb Hext Hb. rewrite (Refinement.truth_repr h1 b tb Hb).
    destruct (truth tb).
    + apply sim_ret. apply (Refinement.repr_mono h0); assumption.
    + apply sim_Nothing_new.
  - (* flatten *)
    apply (sim_ext h0
             (bind (Store.getattr self "value")
                (fun t => bind (Store.isinstance_OptionProtocol t)
                            (fun i => if i then ret t else ret self))) _
             (if isinstance_OptionProtocol value then ret value else ret (VSome value)) _).
    + reflexivity.
    + intros w. rewrite Some_flatten_spec.
      destruct (isinstance_OptionProtocol value); reflexivity.
    + apply (sim_getattr_value h0 self value); [ exact Hself | ].
      intros v Hv. apply (sim_isinstance h0 v value); [ exact Hv | ].
      destruct (isinstance_OptionProtocol value); apply sim_ret; assumption.
  - (* is_nothing *) apply sim_ret. constructor.
  - (* is_some *) apply sim_ret. constructor.
  - (* map *)
    apply (sim_getattr_value h0 self value); [ exact Hself | ].
    intros v Hv. apply sim_bind; [ apply Hargs, Hv | ].
    intros h1 u tu Hext Hu. apply sim_Some_new, Hu.
  - (* map_or *)
    apply (sim_getattr_value h0 self value); [ exact Hself | ].
    intros v Hv. apply Hargs, Hv.
  - (* map_or_else *)
    apply (sim_getattr_value h0 self value); [ exact Hself | ].
    intros v Hv. apply Hargs, Hv.
  - (* ok_or *) apply sim_ret. constructor.
  - (* ok_or_else *) apply sim_ret. constructor.
  - (* unwrap *) apply sim_getattr_value_ret, Hself.
  - (* unwrap_or *) apply sim_getattr_value_ret, Hself.
  - (* unwrap_or_else *) apply sim_getattr_value_ret, Hself.
  - (* or_else *) apply sim_ret, Hself.
  - (* zip *)
    inversion Hself as [ | | | | | a o v t Ha Hc Hv Ht | | ]; subst.
    assert (Hme : Store.reads h0 (Store.Some_unwrap (Store.Ref a)) v)
      by (eapply reads_unwrap_Some; eassumption).
    unfold Store.Some_zip.
    destruct Hargs as [ | | | | | a' o' v' t' Ha' Hc' Hv' Ht' | a' o' Ha' Hc' | a' o' c' Ha' Hc' ].
    1-5: apply (sim_raises_l h0 _ (AttributeError "is_some"));
      [ apply raises_is_some_scalar; discriminate | apply sim_raise ].
    + (* the other is a Some *)
      apply (sim_reads_l h0 _ (Store.RBool true)).
      { eapply reads_is_some_Some; eassumption. }
      simpl. apply (sim_reads_l h0 _ v); [ exact Hme | ].
      apply (sim_reads_l h0 _ v').
      { eapply reads_call_unwrap_Some; eassumption. }
      change (Some_zip value (VSome t')) with (@ret W pyval (VSome (VTuple value t'))).
      apply sim_Some_new. constructor; assumption.
    + (* the other is Nothing *)
      apply (sim_reads_l h0 _ (Store.RBool false)).
      { eapply reads_is_some_Nothing; eassumption. }
      simpl. change (Some_zip value VNothing) with (@ret W pyval VNothing).
      apply sim_Nothing_new.
    + (* the other is an instance of a plain class *)
      apply (sim_raises_l h0 _ (AttributeError "is_some")).
      { eapply raises_is_some_plain; eassumption. }
      apply sim_raise.
  - (* contains *)
    apply (sim_getattr_value h0 self value); [ exact Hself | ].
    intros v Hv. apply sim_eq_op; assumption.
Qed.

Lemma Nothing_refines (h0 : Store.heap) (self : Store.val)
    (m : method Store.val Store.heap) (n : method pyval W) :
  Store.repr h0 self VNothing ->
  Store.args_rel R h0 m n ->
  sim_from h0 (Store.call self m) (call VNothing n).
Proof.
  intros Hself Hargs.
  unfold Store.call. apply (sim_type_of h0 self VNothing); [ exact Hself | ].
  simpl Store.klass_of_tree. cbv iota beta.
  destruct m as [f|msg|f| | | |f|dflt f|dflt f|err|f| |dflt|f|f|other|item],
           n as [g|msg'|g| | | |g|dflt' g|dflt' g|err'|g| |dflt'|g|g|other'|item'];
    simpl in Hargs; try contradiction; simpl call.
  - (* and_then *) apply sim_Nothing_new.
  - (* expect *) subst msg'. apply sim_raise.
  - (* filter *) apply sim_ret, Hself.
  - (* flatten *) apply sim_ret, Hself.
  - (* is_nothing *) apply sim_ret. constructor.
  - (* is_some *) apply sim_ret. constructor.
  - (* map *) apply sim_Nothing_new.
  - (* map_or *) apply sim_ret, Hargs.
  - (* map_or_else *) apply Hargs.
  - (* ok_or *) apply sim_ret. constructor.
  - (* ok_or_else *) apply sim_ret. constructor.
  - (* unwrap *) apply sim_raise.
  - (* unwrap_or *) apply sim_ret, Hargs.
  - (* unwrap_or_else *) apply Hargs.
  - (* or_else *) apply Hargs.
  - (* zip *) apply sim_Nothing_new.
  - (* contains *) apply sim_ret. constructor.
Qed.


End Simulation.

End Agreement.

(** * The model at work *)

(** ** Runs of the value layer *)

Example run_map_counts_one_call :
  call (VSome (VInt 3)) (instrument (m_map (fun v : pyval => @ret unit pyval (VTuple v v))))
    (tt, 0%nat)
  = (Returns (VSome (VTuple (VInt 3) (VInt 3))), (tt, 1%nat)).
Proof. reflexivity. Qed.

Example run_map_on_Nothing_counts_no_call :
  call VNothing (instrument (m_map (fun v : pyval => @ret unit pyval (VTuple v v))))
    (tt, 0%nat)
  = (Returns VNothing, (tt, 0%nat)).
Proof. reflexivity. Qed.

Example run_filter_keeps_and_drops :
  call (VSome (VInt 3)) (m_filter (fun v : pyval => @ret unit pyval (VBool (py_eq v (VInt 3))))) tt
  = (Returns (VSome (VInt 3)), tt)
  /\ call (VSome (VInt 4)) (m_filter (fun v : pyval => @ret unit pyval (VBool (py_eq v (VInt 3))))) tt
     = (Returns VNothing, tt).
Proof. split; reflexivity. Qed.

Example run_contains :
  call (VSome (VInt 3)) (m_contains (VInt 3)) tt = (Returns (VBool true), tt)
  /\ call (VSome (VInt 3)) (m_contains (VInt 4)) tt = (Returns (VBool false), tt)
  /\ call VNothing (m_contains (VInt 3)) tt = (Returns (VBool false), tt)
  /\ call (VSome (VInt 1)) (m_contains (VBool true)) tt = (Returns (VBool true), tt).
Proof. repeat split. Qed.

Example run_zip_with_a_non_Option :
  call (VSome (VInt 1)) (m_zip (VInt 5)) tt = (Raises (AttributeError "is_some"), tt).
Proof. reflexivity. Qed.

Example run_callback_exception_propagates :
  call (VSome (VInt 1)) (m_map (fun _ : pyval => @raise unit pyval (Exception "boom"))) tt
  = (Raises (Exception "boom"), tt).
Proof. reflexivity. Qed.

(** ** Runs of the store layer *)

Example store_run_flatten :
  (Store.call (Store.Ref 0) m_flatten Store.heap_nested).1 = Returns (Store.Ref 1).
Proof. vm_compute. reflexivity. Qed.

Example store_run_map :
  ((r <- Store.call (Store.Ref 1) (m_map Store.record_and_succ) ;;
    v <- Store.getattr r "value" ;;
    s <- Store.getattr (Store.Ref 2) "seen" ;;
    ret (Store.RTuple (Store.RTuple r v) s)) Store.heap_nested).1
  = Returns (Store.RTuple (Store.RTuple (Store.Ref 3) (Store.RInt 6)) (Store.RInt 5)).
Proof. vm_compute. reflexivity. Qed.

Example store_run_zip :
  ((r <- Store.call (Store.Ref 1) (m_zip (Store.Ref 0)) ;;
    Store.getattr r "value") Store.heap_nested).1
  = Returns (Store.RTuple (Store.RInt 5) (Store.Ref 1)).
Proof. vm_compute. reflexivity. Qed.

Example store_run_contains :
  (Store.call (Store.Ref 0) (m_contains (Store.Ref 1)) Store.heap_nested).1
  = Returns (Store.RBool true).
Proof. vm_compute. reflexivity. Qed.

Example store_run_assignment_is_refused :
  (Store.call (Store.Ref 0) (m_map Store.assign_value) Store.heap_Some_1)
  = (Raises (FrozenInstanceError "cannot assign to field 'value'"), Store.heap_Some_1)
  /\ (Store.delattr (Store.Ref 0) "value" Store.heap_Some_1)
     = (Raises (FrozenInstanceError "cannot delete field 'value'"), Store.heap_Some_1)
  /\ (Store.setattr (Store.Ref 2) "x" (Store.RInt 1) Store.heap_nested).1
     = Returns Store.RNone.
Proof. repeat split; vm_compute; reflexivity. Qed.

Example store_run_properties :
  (Store.getattr (Store.Ref 0) "is_some" Store.heap_Some_1).1
  = Returns (Store.RBool true)
  /\ (Store.getattr (Store.Ref 0) "is_nothing" Store.heap_Some_1).1
     = Returns (Store.RBool false)
  /\ (Store.getattr (Store.Ref 2) "is_ok" Store.heap_nested).1
     = Returns (Store.RBool true)
  /\ (Store.setattr (Store.Ref 2) "is_ok" (Store.RInt 5) Store.heap_nested)
     = (Raises (AttributeError "is_ok"), Store.heap_nested)
  /\ (Store.getattr (Store.Ref 2) "value" Store.heap_nested).1
     = Raises (AttributeError "value").
Proof. repeat split; vm_compute; reflexivity. Qed.

Example run_repr_str :
  repr_str "value" = "'value'"
  /\ repr_str "" = "''"
  /\ repr_str "it's" = String double_quote ("it's" ++ String double_quote "")
  /\ repr_str (String double_quote "it's")
     = String single_quote
         (String double_quote
            ("it" ++ String backslash ("'s" ++ String single_quote "")))
  /\ repr_str (String (ascii_of_nat 10) (String (ascii_of_nat 127) ""))
     = String single_quote
         (String backslash ("n" ++ String backslash ("x7f" ++ String single_quote ""))).
Proof. repeat split. Qed.

Example store_run_two_Somes_compare_equal :
  ((o1 <- Store.Some_new (Store.RInt 1) ;;
    o2 <- Store.Some_new (Store.RInt 1) ;;
    Store.eq_op o1 o2) ∅).1
  = Returns (Store.RBool true).
Proof. vm_compute. reflexivity. Qed.

(** ** An instance of the agreement of the layers *)

Lemma no_relation_is_stable :
  Store.stable_under_alloc (fun (_ : Store.heap) (_ : unit) => True).
Proof. intros h w o _ _. exact I. Qed.

Lemma heap_nested_reads :
  Store.repr Store.heap_nested (Store.Ref 0) (VSome (VSome (VInt 5))).
Proof.
  eapply Store.repr_Some; [ reflexivity | reflexivity | reflexivity | ].
  eapply Store.repr_Some; [ reflexivity | reflexivity | reflexivity | ].
  constructor.
Qed.


(** * Laws of the combinators

    How the operations of the Option compose.  An equation between two
    computations is stated at every world: the two sides return or raise
    the same and leave the same world. *)

(** ** map and and_then *)

(** X1.  [map] preserves composition and identity: mapping [f] and then
    [g] is mapping [lambda v: g(f(v))], on every receiver and with
    functions that may raise or change the world; and mapping the identity
    returns an Option equal to the receiver. *)
Theorem map_preserves_composition {W} (self v : pyval)
    (f g : pyval -> M W pyval) (w : W) :
  (r <- call self (m_map f) ;; call r (m_map g)) w
  = call self (m_map (fun x => u <- f x ;; g u)) w
  /\ call (VSome v) (m_map (fun x => ret x)) w = (Returns (VSome v), w)
  /\ call VNothing (m_map (fun x => ret x)) w = (Returns VNothing, w).
Proof.
  split; [ | split; reflexivity ].
  destruct self; try reflexivity.
  simpl. unfold Some_map, bind, ret.
  destruct (f self w) as [[u | e] w1]; [ | reflexivity ].
  simpl. reflexivity.
Qed.

(** X2.  [and_then] obeys the laws of a monad whose unit is [Some]:
    chaining is associative on every receiver, [Some(v).and_then(f)] is
    [f(v)], chaining with [Some] itself gives back the receiver, and [map]
    is [and_then] with the result wrapped in [Some]. *)
Theorem and_then_is_associative {W} (self v : pyval)
    (f g : pyval -> M W pyval) (w : W) :
  (r <- call self (m_and_then f) ;; call r (m_and_then g)) w
  = call self (m_and_then (fun x => r <- f x ;; call r (m_and_then g))) w
  /\ (r <- ret (VSome v) ;; call r (m_and_then f)) w = f v w
  /\ call (VSome v) (m_and_then (fun x => ret (VSome x))) w = (Returns (VSome v), w)
  /\ call VNothing (m_and_then (fun x => ret (VSome x))) w = (Returns VNothing, w)
  /\ call (VSome v) (m_map f) w
     = call (VSome v) (m_and_then (fun x => u <- f x ;; ret (VSome u))) w
  /\ call VNothing (m_map f) w
     = call VNothing (m_and_then (fun x => u <- f x ;; ret (VSome u))) w.
Proof.
  split; [ | repeat split ].
  destruct self; reflexivity.
Qed.

(** ** filter *)

(** X3.  Filtering twice is filtering once by [lambda v: p(v) and q(v)]:
    [q] is asked only when [p] answered with a true value, and the two
    sides call the predicates in the same order on the same worlds. *)
Theorem filter_twice_is_filter_both {W} (self : pyval)
    (p q : pyval -> M W pyval) (w : W) :
  (r <- call self (m_filter p) ;; call r (m_filter q)) w
  = call self (m_filter (fun v => b <- p v ;; if truth b then q v else ret b)) w.
Proof.
  destruct self; try reflexivity.
  simpl. unfold Some_filter, bind, ret.
  destruct (p self w) as [[b | e] w1]; [ | reflexivity ].
  destruct (truth b) eqn:Hb; simpl.
  - unfold Some_filter, bind, ret. destruct (q self w1) as [[c | e] w2]; reflexivity.
  - rewrite Hb. reflexivity.
Qed.

(** X4.  [filter] tests the truth value of whatever the predicate
    returns, not only a [bool]: when the predicate returns [b], the result
    is the receiver if [b] is true in Python's sense and [Nothing()]
    otherwise.  So a predicate returning [None], [False], [0] or the empty
    string drops the payload, and one returning [True], a nonzero integer,
    a nonempty string, a pair, an instance of [Some] or [Nothing], or an
    instance of [Ok] or [Err] keeps it. *)
Theorem filter_tests_truth_value {W} (v b : pyval) (p : pyval -> M W pyval)
    (w w' : W) :
  p v w = (Returns b, w') ->
  call (VSome v) (m_filter p) w
  = (Returns (if truth b then VSome v else VNothing), w')
  /\ (b = VNone \/ b = VBool false \/ b = VInt 0 \/ b = VStr "" ->
      call (VSome v) (m_filter p) w = (Returns VNothing, w'))
  /\ (b = VBool true \/ (exists n, n <> 0 /\ b = VInt n)
      \/ (exists s, s <> "" /\ b = VStr s) \/ (exists x y, b = VTuple x y)
      \/ (exists x, b = VSome x) \/ b = VNothing \/ (exists c i, b = VObj c i) ->
      call (VSome v) (m_filter p) w = (Returns (VSome v), w')).
Proof.
  intros Hp.
  assert (Hrun : call (VSome v) (m_filter p) w
                 = (Returns (if truth b then VSome v else VNothing), w')).
  { simpl. unfold Some_filter, bind. rewrite Hp. reflexivity. }
  split; [ exact Hrun | split ].
  - intros [-> | [-> | [-> | ->]]]; exact Hrun.
  - intros [-> | [(n & Hn & ->) | [(s & Hs & ->) | [(x & y & ->)
            | [[x ->] | [-> | (c & i & ->)]]]]]]; rewrite Hrun; simpl; try reflexivity.
    + destruct (Z.eqb_spec n 0); [ contradiction | reflexivity ].
    + destruct (String.eqb_spec s ""); [ contradiction | reflexivity ].
Qed.

Lemma filter_tests_truth_value_witness :
  (fun _ : pyval => @ret unit pyval (VInt 0)) (VInt 7) tt = (Returns (VInt 0), tt)
  /\ call (VSome (VInt 7)) (m_filter (fun _ : pyval => @ret unit pyval (VInt 0))) tt
     = (Returns VNothing, tt).
Proof.
  split; [ reflexivity | ].
  exact (proj1 (filter_tests_truth_value (VInt 7) (VInt 0)
                  (fun _ : pyval => @ret unit pyval (VInt 0)) tt tt eq_refl)).
Defined.

(** ** Defaults *)

(** X5.  Mapping with a default is mapping and then unwrapping with the
    default: on every Option, [o.map_or(d, f)] runs as
    [o.map(f).unwrap_or(d)] and [o.map_or_else(t, f)] as
    [o.map(f).unwrap_or_else(t)]. *)
Theorem map_or_is_map_then_unwrap_or {W} (o d : pyval) (t : M W pyval)
    (f : pyval -> M W pyval) (w : W) :
  isinstance_OptionProtocol o = true ->
  call o (m_map_or d f) w = (r <- call o (m_map f) ;; call r (m_unwrap_or d)) w
  /\ call o (m_map_or_else t f) w
     = (r <- call o (m_map f) ;; call r (m_unwrap_or_else t)) w.
Proof.
  intros Ho. destruct o; try discriminate Ho; simpl.
  - unfold Some_map_or, Some_map_or_else, Some_map, bind, ret.
    destruct (f o w) as [[u | e] w1]; split; reflexivity.
  - split; reflexivity.
Qed.

Lemma map_or_is_map_then_unwrap_or_witness :
  isinstance_OptionProtocol VNothing = true
  /\ call VNothing (m_map_or (VInt 0) (fun x : pyval => @ret unit pyval x)) tt
     = (r <- call VNothing (m_map (fun x : pyval => @ret unit pyval x)) ;;
        call r (m_unwrap_or (VInt 0))) tt.
Proof.
  split; [ reflexivity | ].
  exact (proj1 (map_or_is_map_then_unwrap_or VNothing (VInt 0) (ret VNone)
                  (fun x : pyval => @ret unit pyval x) tt eq_refl)).
Defined.

(** X6.  An eager default is the lazy one at a function that just returns
    it: on every Option, [o.unwrap_or(d)] runs as
    [o.unwrap_or_else(lambda: d)] and [o.map_or(d, f)] as
    [o.map_or_else(lambda: d, f)]; and on a [Some] neither default is
    looked at, so all four agree with [unwrap]. *)
Theorem eager_default_is_constant_lazy_default {W} (o d v : pyval)
    (t : M W pyval) (f : pyval -> M W pyval) (w : W) :
  isinstance_OptionProtocol o = true ->
  call o (m_unwrap_or d) w = call o (m_unwrap_or_else (ret d)) w
  /\ call o (m_map_or d f) w = call o (m_map_or_else (ret d) f) w
  /\ call (VSome v) (m_unwrap_or d) w = call (VSome v) m_unwrap w
  /\ call (VSome v) (m_unwrap_or_else t) w = call (VSome v) m_unwrap w.
Proof.
  intros Ho. destruct o; try discriminate Ho; repeat split.
Qed.

Lemma eager_default_is_constant_lazy_default_witness :
  isinstance_OptionProtocol VNothing = true
  /\ call VNothing (m_unwrap_or (VInt 3)) tt
     = call VNothing (m_unwrap_or_else (@ret unit pyval (VInt 3))) tt.
Proof.
  split; [ reflexivity | ].
  exact (proj1 (eager_default_is_constant_lazy_default VNothing (VInt 3) VNone
                  (ret VNone) (fun x : pyval => @ret unit pyval x) tt eq_refl)).
Defined.

(** ** or_else *)

(** X7.  [or_else] is associative with [Nothing] as its neutral element:
    [o.or_else(f).or_else(g)] runs as
    [o.or_else(lambda: f().or_else(g))] on every receiver, an alternative
    that returns [Nothing()] leaves an Option as it is, and [Nothing]
    followed by an alternative is the alternative. *)
Theorem or_else_is_associative {W} (self v : pyval) (f g : M W pyval) (w : W) :
  (r <- call self (m_or_else f) ;; call r (m_or_else g)) w
  = call self (m_or_else (r <- f ;; call r (m_or_else g))) w
  /\ call (VSome v) (m_or_else (ret VNothing)) w = (Returns (VSome v), w)
  /\ call VNothing (m_or_else (ret VNothing)) w = (Returns VNothing, w)
  /\ call VNothing (m_or_else f) w = f w.
Proof.
  split; [ | repeat split ].
  destruct self; reflexivity.
Qed.

(** ** zip *)

(** X8.  [Some.zip] reads [is_some] on its operand and [Nothing.zip] does
    not: given a value of a built-in type ([None], a [bool], an [int], a
    [str] or a pair), which has no such attribute, [Some(v).zip(x)] raises
    [AttributeError] while [Nothing().zip(x)] returns [Nothing()] without
    touching [x]. *)
Theorem zip_with_a_non_Option {W} (v x : pyval) (w : W) :
  builtin x = true ->
  call (VSome v) (m_zip x) w = (Raises (AttributeError "is_some"), w)
  /\ call VNothing (m_zip x) w = (Returns VNothing, w).
Proof.
  intros Hx. split; [ | reflexivity ].
  destruct x; try discriminate Hx; reflexivity.
Qed.

Lemma zip_with_a_non_Option_witness :
  builtin (VInt 5) = true
  /\ call (VSome (VInt 1)) (m_zip (VInt 5)) tt = (Raises (AttributeError "is_some"), tt).
Proof.
  split; [ reflexivity | ].
  exact (proj1 (zip_with_a_non_Option (VInt 1) (VInt 5) tt eq_refl)).
Defined.

(** ** flatten *)

(** X9.  Mapping a function that returns Options and flattening the
    result is chaining that function: [o.map(f).flatten()] runs as
    [o.and_then(f)] on every Option, provided every value [f] returns is an
    Option.  (Without the proviso the two differ: [flatten] leaves a
    payload that is no Option wrapped in its [Some].) *)
Theorem flatten_after_map_is_and_then {W} (o : pyval) (f : pyval -> M W pyval)
    (w : W) :
  isinstance_OptionProtocol o = true ->
  (forall a w0 r w1, f a w0 = (Returns r, w1) -> isinstance_OptionProtocol r = true) ->
  (r <- call o (m_map f) ;; call r m_flatten) w = call o (m_and_then f) w.
Proof.
  intros Ho Hf. destruct o; try discriminate Ho; simpl; [ | reflexivity ].
  unfold Some_map, Some_and_then, bind, ret.
  destruct (f o w) as [[r | e] w1] eqn:Hrun; [ | reflexivity ].
  change (call (VSome r) m_flatten w1) with (Some_flatten r w1).
  rewrite Some_flatten_spec, (Hf o w r w1 Hrun). reflexivity.
Qed.

Lemma flatten_after_map_is_and_then_witness :
  isinstance_OptionProtocol (VSome (VInt 2)) = true
  /\ (r <- call (VSome (VInt 2)) (m_map (fun x : pyval => @ret unit pyval (VSome x))) ;;
      call r m_flatten) tt
     = call (VSome (VInt 2)) (m_and_then (fun x : pyval => @ret unit pyval (VSome x))) tt.
Proof.
  split; [ reflexivity | ].
  apply (flatten_after_map_is_and_then (VSome (VInt 2))
           (fun x : pyval => @ret unit pyval (VSome x)) tt eq_refl).
  intros a w0 r w1 [= <- _]. reflexivity.
Defined.

(** ** Equality and membership *)

Lemma py_eq_trans (x : pyval) :
  forall y z : pyval, py_eq x y = true -> py_eq y z = true -> py_eq x z = true.
Proof.
  induction x as [ | a | m | s | x1 IH1 x2 IH2 | x IH | | c i ];
    intros [ | b | n | t | y1 y2 | y | | d j ] [ | b' | n' | t' | z1 z2 | z | | d' j' ];
    simpl; try discriminate; try reflexivity; intros H1 H2.
  - apply Z.eqb_eq in H1, H2. apply Z.eqb_eq. congruence.
  - apply Z.eqb_eq in H1, H2. apply Z.eqb_eq. congruence.
  - apply Z.eqb_eq in H1, H2. apply Z.eqb_eq. congruence.
  - apply Z.eqb_eq in H1, H2. apply Z.eqb_eq. congruence.
  - apply Z.eqb_eq in H1, H2. apply Z.eqb_eq. congruence.
  - apply Z.eqb_eq in H1, H2. apply Z.eqb_eq. congruence.
  - apply Z.eqb_eq in H1, H2. apply Z.eqb_eq. congruence.
  - apply Z.eqb_eq in H1, H2. apply Z.eqb_eq. congruence.
  - apply String.eqb_eq in H1, H2. apply String.eqb_eq. congruence.
  - apply andb_true_iff in H1 as [H11 H12]. apply andb_true_iff in H2 as [H21 H22].
    apply andb_true_iff. split; [ eapply IH1 | eapply IH2 ]; eassumption.
  - eapply IH; eassumption.
  - apply andb_true_iff in H1 as [H11 H12]. apply andb_true_iff in H2 as [H21 H22].
    apply andb_true_iff. split.
    + apply cls_eqb_eq in H11, H21. apply cls_eqb_eq. congruence.
    + apply Nat.eqb_eq in H12, H22. apply Nat.eqb_eq. congruence.
Qed.

(** X10.  On the Option family [==] is an equivalence that looks through
    [Some]: it is reflexive, symmetric and transitive, [Some(a) == Some(b)]
    is [a == b], and a [Some] is never equal to [Nothing()]. *)
Theorem Option_equality_is_an_equivalence (x y z a b : pyval) :
  py_eq x y = true -> py_eq y z = true ->
  py_eq x z = true
  /\ py_eq x x = true
  /\ py_eq y x = true
  /\ py_eq (VSome a) (VSome b) = py_eq a b
  /\ py_eq (VSome x) (VSome z) = true
  /\ py_eq (VSome a) VNothing = false
  /\ py_eq VNothing VNothing = true.
Proof.
  intros Hxy Hyz.
  assert (Hxz : py_eq x z = true) by (eapply py_eq_trans; eassumption).
  repeat split; try assumption.
  - apply py_eq_refl.
  - rewrite py_eq_sym. exact Hxy.
Qed.

Lemma Option_equality_is_an_equivalence_witness :
  py_eq (VSome (VBool true)) (VSome (VInt 1)) = true
  /\ py_eq (VSome (VInt 1)) (VSome (VBool true)) = true
  /\ py_eq (VSome (VBool true)) (VSome (VBool true)) = true.
Proof.
  split; [ reflexivity | split; [ reflexivity | ] ].
  exact (proj1 (Option_equality_is_an_equivalence
                  (VSome (VBool true)) (VSome (VInt 1)) (VSome (VBool true))
                  VNone VNone eq_refl eq_refl)).
Defined.

(** X11.  Membership is equality with the payload, on the values of the
    model ([None], bools, integers, strings, pairs, Options and instances
    of [Ok] and [Err]: no float, so no NaN, and no class with an [__eq__]
    of its own).  On every Option of such values [item in o] is
    [o == Some(item)]; so a [Some] contains its own payload, [Nothing]
    contains nothing, and two items that are equal are both in the Option
    or both out of it. *)
Theorem contains_is_equality_with_Some {W} (o item item' v : pyval) (w : W) :
  isinstance_OptionProtocol o = true ->
  py_eq item item' = true ->
  call o (m_contains item) w = (Returns (VBool (py_eq o (VSome item))), w)
  /\ call o (m_contains item) w = call o (m_contains item') w
  /\ call (VSome v) (m_contains v) w = (Returns (VBool true), w)
  /\ call VNothing (m_contains item) w = (Returns (VBool false), w).
Proof.
  intros Ho Heq. destruct o; try discriminate Ho; simpl; unfold Some_contains.
  - repeat split.
    + rewrite py_eq_sym. reflexivity.
    + assert (Hsame : py_eq item o = py_eq item' o).
      { destruct (py_eq item o) eqn:H1, (py_eq item' o) eqn:H2; try reflexivity; exfalso.
        - assert (py_eq item' o = true)
            by (apply (py_eq_trans item' item o); [ rewrite py_eq_sym; exact Heq | exact H1 ]).
          congruence.
        - assert (py_eq item o = true) by (apply (py_eq_trans item item' o); assumption).
          congruence. }
      rewrite Hsame. reflexivity.
    + rewrite py_eq_refl. reflexivity.
  - repeat split. rewrite py_eq_refl. reflexivity.
Qed.

Lemma contains_is_equality_with_Some_witness :
  isinstance_OptionProtocol (VSome (VInt 1)) = true
  /\ py_eq (VInt 1) (VBool true) = true
  /\ call (VSome (VInt 1)) (m_contains (VInt 1)) tt
     = call (VSome (VInt 1)) (m_contains (VBool true)) tt.
Proof.
  split; [ reflexivity | split; [ reflexivity | ] ].
  exact (proj1 (proj2 (contains_is_equality_with_Some (VSome (VInt 1)) (VInt 1)
                         (VBool true) VNone tt eq_refl eq_refl))).
Defined.

(** ** What a caller-supplied function sees *)

(** X12.  A function of one argument is only ever applied to the payload
    of the receiver.  With recording stubs for the functions, a call on
    [Some(v)] runs as before and the record gains nothing or the single
    entry [v]; a call on [Nothing] runs as before and the record gains
    nothing, whichever operation it is. *)
Theorem functions_see_only_the_payload {W} (v : pyval) (m : method pyval W) (w : W)
    (l0 : list pyval) :
  (exists l : list pyval,
      (l = [] \/ l = [v])
      /\ call (VSome v) (record_args m) (w, l0)
         = ((call (VSome v) m w).1, ((call (VSome v) m w).2, (l ++ l0)%list)))
  /\ call VNothing (record_args m) (w, l0)
     = ((call VNothing m w).1, ((call VNothing m w).2, l0)).
Proof.
  split.
  - destruct m as [f|msg|predicate| | | |f|default f|default f|err|f| |default|f|f|other|item];
      try (exists []; split; [ left; reflexivity | reflexivity ]).
    + exists [v]. split; [ right; reflexivity | ]. simpl.
      unfold Some_and_then, recorded. simpl. split_runs.
    + exists [v]. split; [ right; reflexivity | ]. simpl.
      unfold Some_filter, bind, recorded, ret. simpl. split_runs.
    + exists []. split; [ left; reflexivity | ]. simpl.
      unfold Some_flatten, Some_unwrap, OptionProtocol_unwrap, Some_expect, bind, ret.
      destruct (isinstance_OptionProtocol v); reflexivity.
    + exists [v]. split; [ right; reflexivity | ]. simpl.
      unfold Some_map, bind, recorded, ret. simpl. split_runs.
    + exists [v]. split; [ right; reflexivity | ]. simpl.
      unfold Some_map_or, recorded. simpl. split_runs.
    + exists [v]. split; [ right; reflexivity | ]. simpl.
      unfold Some_map_or_else, recorded. simpl. split_runs.
    + exists []. split; [ left; reflexivity | ]. simpl.
      destruct other; reflexivity.
  - destruct m as [f|msg|predicate| | | |f|default f|default f|err|f| |default|f|f|other|item];
      try reflexivity; simpl;
      unfold Nothing_map_or_else, Nothing_unwrap_or_else, Nothing_or_else, unrecorded;
      simpl; split_runs.
Qed.

(** X13.  An exception raised by a caller-supplied function is never
    swallowed: when the function raises on the payload, [and_then],
    [filter], [map], [map_or] and [map_or_else] on a [Some] raise the same
    exception and leave the world the function left; likewise
    [map_or_else], [unwrap_or_else] and [or_else] on [Nothing] when their
    function of no argument raises. *)
Theorem callback_exceptions_propagate {W} (v d : pyval) (f : pyval -> M W pyval)
    (t u : M W pyval) (e e' : exn) (w w1 w2 : W) :
  f v w = (Raises e, w1) ->
  t w = (Raises e', w2) ->
  call (VSome v) (m_and_then f) w = (Raises e, w1)
  /\ call (VSome v) (m_filter f) w = (Raises e, w1)
  /\ call (VSome v) (m_map f) w = (Raises e, w1)
  /\ call (VSome v) (m_map_or d f) w = (Raises e, w1)
  /\ call (VSome v) (m_map_or_else u f) w = (Raises e, w1)
  /\ call VNothing (m_map_or_else t f) w = (Raises e', w2)
  /\ call VNothing (m_unwrap_or_else t) w = (Raises e', w2)
  /\ call VNothing (m_or_else t) w = (Raises e', w2).
Proof.
  intros Hf Ht. simpl.
  unfold Some_and_then, Some_filter, Some_map, Some_map_or, Some_map_or_else,
    Nothing_map_or_else, Nothing_unwrap_or_else, Nothing_or_else, bind.
  rewrite Hf, Ht. repeat split.
Qed.

Lemma callback_exceptions_propagate_witness :
  call (VSome (VInt 1)) (m_map (fun _ : pyval => @raise unit pyval (Exception "boom"))) tt
  = (Raises (Exception "boom"), tt).
Proof.
  exact (proj1 (proj2 (proj2
           (callback_exceptions_propagate (VInt 1) VNone
              (fun _ : pyval => @raise unit pyval (Exception "boom"))
              (raise (Exception "late")) (ret VNone)
              (Exception "boom") (Exception "late") tt tt tt eq_refl eq_refl)))).
Defined.

(** * Laws of the store layer *)

(** ** Structural equality of the dataclasses *)

(** X14.  Two instances of [Some] built by two constructor calls from the
    same payload are two objects (their addresses differ) and compare
    equal, in every heap and for every payload the heap can read: the
    generated [__eq__] compares fields, not identities. *)
Theorem separately_built_Somes_compare_equal (h : Store.heap) (v : Store.val)
    (t : pyval) :
  Store.repr h v t ->
  exists a b : nat,
    a <> b
    /\ ((o1 <- Store.Some_new v ;; o2 <- Store.Some_new v ;;
         ret (Store.RTuple o1 o2)) h).1
       = Returns (Store.RTuple (Store.Ref a) (Store.Ref b))
    /\ ((o1 <- Store.Some_new v ;; o2 <- Store.Some_new v ;;
         Store.eq_op o1 o2) h).1
       = Returns (Store.RBool true).
Proof.
  intros Hv.
  set (p := Store.Instance Store.cSome {["value" := v]}).
  set (a := fresh (dom h)).
  set (h1 := <[a := p]> h).
  set (b := fresh (dom h1)).
  set (h2 := <[b := p]> h1).
  assert (Hba : b <> a) by apply (Frame.alloc_twice_differs p p h).
  exists a, b. split; [ congruence | split; [ reflexivity | ] ].
  assert (Hext : Store.extends h h2).
  { eapply Refinement.extends_trans; apply Refinement.extends_alloc. }
  assert (Hv2 : Store.repr h2 v t) by (eapply Refinement.repr_mono; eassumption).
  assert (Ha : Store.repr h2 (Store.Ref a) (VSome t)).
  { apply (Store.repr_Some h2 a p v t);
      [ | reflexivity | apply lookup_singleton_eq | exact Hv2 ].
    unfold h2. rewrite lookup_insert_ne by exact Hba. apply lookup_insert_eq. }
  assert (Hb : Store.repr h2 (Store.Ref b) (VSome t)).
  { apply (Store.repr_Some h2 b p v t);
      [ | reflexivity | apply lookup_singleton_eq | exact Hv2 ].
    apply lookup_insert_eq. }
  change ((o1 <- Store.Some_new v ;; o2 <- Store.Some_new v ;; Store.eq_op o1 o2) h)
    with (Store.eq_op (Store.Ref a) (Store.Ref b) h2).
  rewrite (Refinement.eq_op_agree h2 _ _ _ _ Ha Hb).
  simpl. rewrite py_eq_refl. reflexivity.
Qed.

Lemma separately_built_Somes_compare_equal_witness :
  exists a b : nat,
    a <> b
    /\ ((o1 <- Store.Some_new (Store.RInt 1) ;; o2 <- Store.Some_new (Store.RInt 1) ;;
         ret (Store.RTuple o1 o2)) ∅).1
       = Returns (Store.RTuple (Store.Ref a) (Store.Ref b))
    /\ ((o1 <- Store.Some_new (Store.RInt 1) ;; o2 <- Store.Some_new (Store.RInt 1) ;;
         Store.eq_op o1 o2) ∅).1
       = Returns (Store.RBool true).
Proof.
  exact (separately_built_Somes_compare_equal ∅ (Store.RInt 1) (VInt 1)
           (Store.repr_Int ∅ 1)).
Defined.

(** ** What a call writes *)



(** ** Which object a call returns *)

(** X16.  Where the source says [return self] the caller gets the very
    object it called, and where it says [return Nothing()] a new one.  On
    an instance of [Some], [or_else] returns the receiver's own address and
    so does [filter] when the predicate answers with a true value; on an
    instance of [Nothing], [filter] and [flatten] return the receiver's
    address and leave the heap alone, while [map], [and_then] and [zip]
    return a fresh address, different from the receiver's, holding a new
    [Nothing]. *)
Theorem returned_object_identity (h h' : Store.heap) (a : nat) (o : Store.instance)
    (value b x : Store.val) (f : Store.val -> M Store.heap Store.val)
    (t : M Store.heap Store.val) :
  h !! a = Some o ->
  (Store.class_of o = Store.cSome ->
   Store.dict o !! "value" = Some value ->
   f value h = (Returns b, h') -> Store.truth b = true ->
   Store.call (Store.Ref a) (m_or_else t) h = (Returns (Store.Ref a), h)
   /\ Store.call (Store.Ref a) (m_filter f) h = (Returns (Store.Ref a), h'))
  /\ (Store.class_of o = Store.cNothing ->
      Store.call (Store.Ref a) (m_filter f) h = (Returns (Store.Ref a), h)
      /\ Store.call (Store.Ref a) m_flatten h = (Returns (Store.Ref a), h)
      /\ Store.call (Store.Ref a) (m_map f) h
         = (Returns (Store.Ref (fresh (dom h))),
            <[fresh (dom h) := Store.Instance Store.cNothing ∅]> h)
      /\ Store.call (Store.Ref a) (m_and_then f) h
         = Store.call (Store.Ref a) (m_map f) h
      /\ Store.call (Store.Ref a) (m_zip x) h
         = Store.call (Store.Ref a) (m_map f) h)
  /\ fresh (dom h) <> a.
Proof.
  intros Ha. split; [ | split ].
  - intros Hc Hv Hf Hb.
    unfold Store.call, Store.type_of, bind. rewrite Ha. simpl. rewrite Hc.
    split; [ reflexivity | ].
    unfold Store.Some_filter, bind.
    rewrite (Frame.getattr_value h a o Ha), Hv, Hf, Hb. reflexivity.
  - intros Hc.
    unfold Store.call, Store.type_of, bind. rewrite Ha. simpl. rewrite Hc.
    repeat split.
  - intros Heq. apply (is_fresh (dom h)). rewrite Heq. apply elem_of_dom. eauto.
Qed.

Lemma returned_object_identity_witness :
  Store.heap_nested !! 1%nat
  = Some (Store.Instance Store.cSome {["value" := Store.RInt 5]})
  /\ Store.call (Store.Ref 1) (m_or_else (ret Store.RNone)) Store.heap_nested
     = (Returns (Store.Ref 1), Store.heap_nested)
  /\ Store.call (Store.Ref 1) (m_filter (fun v => ret (Store.RBool true))) Store.heap_nested
     = (Returns (Store.Ref 1), Store.heap_nested).
Proof.
  split; [ reflexivity | ].
  refine (proj1 (returned_object_identity Store.heap_nested Store.heap_nested 1
                   (Store.Instance Store.cSome {["value" := Store.RInt 5]})
                   (Store.RInt 5) (Store.RBool true) Store.RNone
                   (fun v => ret (Store.RBool true)) (ret Store.RNone) _)
            _ _ _ _);
    reflexivity.
Defined.

(** ** The plain classes *)

(** The properties of the plain classes are [is_ok] and [is_err]. *)
Lemma property_plain_None (c : cls) (name : string) :
  name <> "is_ok" -> name <> "is_err" -> Store.property (Store.cPlain c) name = None.
Proof.
  intros Hok Herr. destruct c; simpl;
    destruct (String.eqb_spec name "is_ok"), (String.eqb_spec name "is_err");
    congruence.
Qed.

Lemma property_plain_Some (c : cls) (name : string) :
  name = "is_ok" \/ name = "is_err" ->
  exists getter, Store.property (Store.cPlain c) name = Some getter.
Proof. intros [-> | ->]; destruct c; simpl; eauto. Qed.

(** What such a property answers depends on the class alone. *)
Lemma plain_getter_outcome (c : cls) (name : string)
    (getter : Store.val -> M Store.heap Store.val) (a : nat)
    (h h' : Store.heap) (o o' : Store.instance) :
  Store.property (Store.cPlain c) name = Some getter ->
  h !! a = Some o -> Store.class_of o = Store.cPlain c ->
  h' !! a = Some o' -> Store.class_of o' = Store.cPlain c ->
  (getter (Store.Ref a) h).1 = (getter (Store.Ref a) h').1.
Proof.
  intros Hp Ha Hc Ha' Hc'.
  destruct c; simpl in Hp;
    repeat match type of Hp with
           | context [String.eqb ?x ?y] => destruct (String.eqb x y)
           end;
    try discriminate Hp; injection Hp as <-; try reflexivity.
  unfold Store.oxidize_Err_is_err, Store.getattr_is_ok, bind, Store.type_of.
  rewrite Ha, Ha'. simpl. rewrite Hc, Hc'. reflexivity.
Qed.

(** X17.  [Ok] and [Err] are not frozen.  Take an instance of either and a
    name that does not start with an underscore.  When the name is not
    [is_ok] or [is_err], an assignment to that attribute is done: the value
    is read back, the instance keeps its class, every other object is as it
    was, and so is what every other such name reads on the instance.  When
    the name is [is_ok] or [is_err], a property without a setter, the
    assignment raises [AttributeError] and the heap is as it was.  (On an
    instance of [Some] or [Nothing] every assignment raises, as C8
    shows.) *)
Theorem Result_instances_accept_assignment (h : Store.heap) (a : nat)
    (o : Store.instance) (c : cls) (name : string) (v : Store.val) :
  h !! a = Some o ->
  Store.class_of o = Store.cPlain c ->
  Store.public name = true ->
  (name <> "is_ok" -> name <> "is_err" ->
   ((_ <- Store.setattr (Store.Ref a) name v ;; Store.getattr (Store.Ref a) name) h).1
   = Returns v
   /\ (Store.type_of (Store.Ref a) (Store.setattr (Store.Ref a) name v h).2).1
      = Returns (Some (Store.cPlain c))
   /\ (forall b : nat, b <> a ->
       (Store.setattr (Store.Ref a) name v h).2 !! b = h !! b)
   /\ (forall name' : string, Store.public name' = true -> name' <> name ->
       (Store.getattr (Store.Ref a) name' (Store.setattr (Store.Ref a) name v h).2).1
       = (Store.getattr (Store.Ref a) name' h).1))
  /\ (name = "is_ok" \/ name = "is_err" ->
      Store.setattr (Store.Ref a) name v h = (Raises (AttributeError name), h)).
Proof.
  intros Ha Hc _. split.
  - intros Hok Herr.
    pose proof (property_plain_None c name Hok Herr) as Hp.
    assert (Hset : Store.setattr (Store.Ref a) name v h
                   = (Returns Store.RNone,
                      <[a := Store.Instance (Store.cPlain c) (<[name := v]> (Store.dict o))]> h)).
    { unfold Store.setattr, Store.object_setattr. rewrite Ha, Hc, Hp. reflexivity. }
    unfold bind. rewrite Hset. simpl.
    repeat split.
    + unfold Store.getattr. rewrite lookup_insert_eq.
      cbn [Store.class_of Store.dict].
      rewrite Hp, lookup_insert_eq. reflexivity.
    + unfold Store.type_of. rewrite lookup_insert_eq. reflexivity.
    + intros b Hb. apply lookup_insert_ne. congruence.
    + intros name' _ Hn. unfold Store.getattr.
      rewrite lookup_insert_eq, Ha, Hc. cbn [Store.class_of Store.dict].
      destruct (Store.property (Store.cPlain c) name') as [getter | ] eqn:Hp'.
      * symmetry.
        eapply (plain_getter_outcome c name' getter a);
          [ exact Hp' | exact Ha | exact Hc | apply lookup_insert_eq | reflexivity ].
      * rewrite lookup_insert_ne by congruence.
        destruct (Store.dict o !! name'); reflexivity.
  - intros Hn. destruct (property_plain_Some c name Hn) as [getter Hp].
    unfold Store.setattr, Store.object_setattr. rewrite Ha, Hc, Hp. reflexivity.
Qed.

Lemma Result_instances_accept_assignment_witness :
  Store.heap_nested !! 2%nat = Some (Store.Instance (Store.cPlain Ok) ∅)
  /\ ((_ <- Store.setattr (Store.Ref 2) "x" (Store.RInt 1) ;;
       Store.getattr (Store.Ref 2) "x") Store.heap_nested).1
     = Returns (Store.RInt 1)
  /\ Store.setattr (Store.Ref 2) "is_ok" (Store.RInt 1) Store.heap_nested
     = (Raises (AttributeError "is_ok"), Store.heap_nested).
Proof.
  split; [ reflexivity | split ].
  - refine (proj1 (proj1 (Result_instances_accept_assignment Store.heap_nested 2
                            (Store.Instance (Store.cPlain Ok) ∅) Ok "x" (Store.RInt 1)
                            eq_refl eq_refl eq_refl) _ _)); discriminate.
  - refine (proj2 (Result_instances_accept_assignment Store.heap_nested 2
                     (Store.Instance (Store.cPlain Ok) ∅) Ok "is_ok" (Store.RInt 1)
                     eq_refl eq_refl eq_refl) _).
    left. reflexivity.
Defined.

(** * What map returns *)

(** X19.  [map] keeps the variant and always returns an Option: whenever
    [o.map(f)] returns, on an Option [o], its result is an Option that
    answers [is_some] and [is_nothing] as [o] does, whatever [f] returned.
    ([and_then] gives no such guarantee: it returns what [f] returns.) *)
Theorem map_preserves_the_variant {W} (o r : pyval) (f : pyval -> M W pyval)
    (w w' : W) :
  isinstance_OptionProtocol o = true ->
  call o (m_map f) w = (Returns r, w') ->
  isinstance_OptionProtocol r = true
  /\ call r m_is_some w' = call o m_is_some w'
  /\ call r m_is_nothing w' = call o m_is_nothing w'.
Proof.
  intros Ho. destruct o; try discriminate Ho; simpl.
  - unfold Some_map, bind, ret. destruct (f o w) as [[u | e] w1]; [ | discriminate ].
    intros [= <- <-]. repeat split.
  - intros [= <- <-]. repeat split.
Qed.

Lemma map_preserves_the_variant_witness :
  isinstance_OptionProtocol (VSome (VInt 1)) = true
  /\ call (VSome (VInt 1)) (m_map (fun _ : pyval => @ret unit pyval VNothing)) tt
     = (Returns (VSome VNothing), tt)
  /\ call (VSome VNothing) m_is_some tt = call (VSome (VInt 1)) m_is_some tt.
Proof.
  split; [ reflexivity | split; [ reflexivity | ] ].
  exact (proj1 (proj2 (map_preserves_the_variant (VSome (VInt 1)) (VSome VNothing)
                         (fun _ : pyval => @ret unit pyval VNothing) tt tt
                         eq_refl eq_refl))).
Defined.
